(** * chroma-viewer: the per-collection logic of [viewer.py]

    A shallow embedding of [display_collections] (viewer.py, lines 36-232):
    the reconciliation of the four arrays returned by [collection.get()],
    the browse tab and the query tab.  Streamlit calls are recorded as a
    trace of events, exceptions are explicit, the keys of the widgets
    created in a run are kept in a registry, and the Chroma collection is an
    object whose methods are fields of a record.  The floats of the
    statistics lines are binary64 values. *)

From Stdlib Require Import String Ascii ZArith List Bool Lia DecimalString SpecFloat.
Import ListNotations.
Open Scope string_scope.
Open Scope Z_scope.

(** ** Python values *)

(** A Python float as the store returns it: [FFinite m e] stands for
    [m * 2 ** e].  The viewer does no arithmetic on embeddings; the
    arithmetic on distances (lines 216-217) is that of [binary64] below. *)
Inductive pyfloat : Type :=
| FFinite (mantissa exponent : Z)
| FInf (negative : bool)
| FNaN.

(** What [json.loads] returns: dict, list, str, int, float, bool or None. *)
#[local] Unset Elimination Schemes.
Inductive json : Type :=
| JNull
| JBool (b : bool)
| JInt (n : Z)
| JFloat (x : pyfloat)
| JStr (s : string)
| JArr (items : list json)
| JObj (members : list (string * json)).
#[local] Set Elimination Schemes.

(** One item's metadata: a dict from keys to scalars. *)
Definition metadata : Type := list (string * json).

(** [bool(x)] for a float: every value but zero is true. *)
Definition float_truthy (x : pyfloat) : bool :=
  match x with
  | FFinite m _ => negb (m =? 0)
  | FInf _ | FNaN => true
  end.

(** [bool(v)] for a value produced by [json.loads]. *)
Definition json_truthy (v : json) : bool :=
  match v with
  | JNull => false
  | JBool b => b
  | JInt n => negb (n =? 0)
  | JFloat x => float_truthy x
  | JStr s => negb (s =? "")%string
  | JArr items => match items with [] => false | _ :: _ => true end
  | JObj members => match members with [] => false | _ :: _ => true end
  end.

(** [len(l)] as a Python int. *)
Definition len {A : Type} (l : list A) : Z := Z.of_nat (length l).

(** [bool(x)] for an optional list: [None] and [[]] are false. *)
Definition truthy {A : Type} (x : option (list A)) : bool :=
  match x with
  | Some (_ :: _) => true
  | Some [] | None => false
  end.

(** [len(x) if x else 0]. *)
Definition len_or_0 {A : Type} (x : option (list A)) : Z :=
  match x with
  | Some l => if truthy x then len l else 0
  | None => 0
  end.

(** [str(n)] for an int. *)
Definition str_int (n : Z) : string := NilZero.string_of_int (Z.to_int n).

(** ** Exceptions *)

Inductive exn : Type :=
| TypeError (msg : string)
| ValueError (msg : string)
| JSONDecodeError (msg : string)     (* json.JSONDecodeError *)
| RecursionError (msg : string)
| ZeroDivisionError (msg : string)
| DuplicateWidgetID (key : string)   (* Streamlit: a widget key used twice in a run *)
| ClientError (msg : string).        (* anything the Chroma client raises *)

(** [str(e)].  For a duplicated key the text is the one Streamlit gives at
    present; earlier versions word it differently. *)
Definition str_exn (e : exn) : string :=
  match e with
  | TypeError msg | ValueError msg | JSONDecodeError msg | RecursionError msg
  | ZeroDivisionError msg | ClientError msg => msg
  | DuplicateWidgetID key =>
      "There are multiple elements with the same `key='" ++ key
      ++ "'`. To fix this, please make sure that the `key` argument is unique for each element you create."
  end.

Inductive result (A : Type) : Type :=
| Ok (a : A)
| Raise (e : exn).
Arguments Ok {A} a.
Arguments Raise {A} e.

(** [len(x)] with no guard: [len(None)] raises. *)
Definition py_len {A : Type} (x : option (list A)) : result Z :=
  match x with
  | Some l => Ok (len l)
  | None => Raise (TypeError "object of type 'NoneType' has no len()")
  end.

(** ** Data frames *)

(** A column handed to [pd.DataFrame]: one of the lists the viewer puts in
    [df_data], [browse_data] or [result_data]. *)
Inductive column : Type :=
| IdCol (l : list string)
| DocumentCol (l : list (option string))
| MetadataCol (l : list (option metadata))
| IntCol (l : list Z)
| FloatCol (l : list pyfloat).

Definition col_len (c : column) : Z :=
  match c with
  | IdCol l => len l
  | DocumentCol l => len l
  | MetadataCol l => len l
  | IntCol l => len l
  | FloatCol l => len l
  end.

(** A dict from column names to columns, in insertion order. *)
Definition dict : Type := list (string * column).

(** [d[k] = v]. *)
Fixpoint dict_set (d : dict) (k : string) (v : column) : dict :=
  match d with
  | [] => [(k, v)]
  | (k', v') :: d' =>
      if (k' =? k)%string then (k, v) :: d' else (k', v') :: dict_set d' k v
  end.

(** [d.get(k)]. *)
Fixpoint dict_get (d : dict) (k : string) : option column :=
  match d with
  | [] => None
  | (k', v) :: d' => if (k' =? k)%string then Some v else dict_get d' k
  end.

(** [k in d]. *)
Definition dict_mem (d : dict) (k : string) : bool :=
  match dict_get d k with Some _ => true | None => false end.

Definition dict_keys (d : dict) : list string := map fst d.

(** [bool(d)]. *)
Definition dict_truthy (d : dict) : bool :=
  match d with [] => false | _ :: _ => true end.

Record dataframe : Type := mk_dataframe {
  columns : dict;
  nrows : Z
}.

(** [pd.DataFrame(d)] for a dict of lists: the lists must all have the same
    length, which becomes the number of rows; otherwise pandas raises. *)
Definition DataFrame (d : dict) : result dataframe :=
  match d with
  | [] => Ok (mk_dataframe [] 0)
  | (_, c) :: rest =>
      if forallb (fun kc => col_len (snd kc) =? col_len c) rest
      then Ok (mk_dataframe d (col_len c))
      else Raise (ValueError "All arrays must be of the same length")
  end.

(** ** The Chroma collection *)

Module GetResult.
(** The dict returned by [collection.get(...)]. *)
Record t : Type := mk {
  ids : option (list string);
  embeddings : option (list (option (list pyfloat)));
  metadatas : option (list (option metadata));
  documents : option (list (option string))
}.
End GetResult.

Module QueryResult.
(** The dict returned by [collection.query(...)]: one inner list per
    query text. *)
Record t : Type := mk {
  ids : option (list (list string));
  documents : option (list (list (option string)));
  metadatas : option (list (list (option metadata)));
  distances : option (list (list pyfloat))
}.
End QueryResult.

Module QueryParams.
(** The dict [query_params], passed to [collection.query] as keyword
    arguments; an absent key is [None]. *)
Record t : Type := mk {
  query_texts : list string;
  n_results : Z;
  where_ : option json;
  where_document : option json
}.
End QueryParams.

Record collection : Type := mk_collection {
  name : string;
  get : result GetResult.t;                       (* collection.get() *)
  get_page : Z -> Z -> result GetResult.t;        (* collection.get(limit=, offset=) *)
  query : QueryParams.t -> result QueryResult.t   (* collection.query(...) *)
}.

(** ** Reconciling the four arrays (lines 60-90, 227-228) *)

Inductive field : Type := Ids | Embeddings | Metadatas | Documents.

(** The dict [lengths] of lines 61-66. *)
Record lengths : Type := mk_lengths {
  ids_len : Z;
  embeddings_len : Z;
  metadatas_len : Z;
  documents_len : Z
}.

Definition lengths_of (data : GetResult.t) : lengths :=
  {| ids_len := len_or_0 (GetResult.ids data);
     embeddings_len := len_or_0 (GetResult.embeddings data);
     metadatas_len := len_or_0 (GetResult.metadatas data);
     documents_len := len_or_0 (GetResult.documents data) |}.

(** [lengths[f]]. *)
Definition lengths_get (L : lengths) (f : field) : Z :=
  match f with
  | Ids => ids_len L
  | Embeddings => embeddings_len L
  | Metadatas => metadatas_len L
  | Documents => documents_len L
  end.

(** [lengths.values()]: the four values, the first one apart (the view is
    never empty). *)
Definition values (L : lengths) : Z * list Z :=
  (ids_len L, [embeddings_len L; metadatas_len L; documents_len L]).

(** [max(xs)] for ints, [xs] given as its first element and the others. *)
Definition py_max (xs : Z * list Z) : Z := fold_left Z.max (snd xs) (fst xs).

(** Line 71: [max_length = max(lengths.values())]. *)
Definition max_length (L : lengths) : Z := py_max (values L).

(** [x and len(x) == max_length]. *)
Definition fits {A : Type} (x : option (list A)) (max_length : Z) : bool :=
  truthy x && (len_or_0 x =? max_length).

(** [[len(emb) if emb else 0 for emb in embeddings]] (line 86). *)
Definition embeddings_count (embs : list (option (list pyfloat))) : list Z :=
  map len_or_0 embs.

(** [if cond: d[k] = col(x)], for an optional list [x] that [cond] has
    found to be a list. *)
Definition set_when {A : Type} (cond : bool) (d : dict) (k : string)
    (x : option (list A)) (col : list A -> column) : dict :=
  if cond then
    match x with
    | Some l => dict_set d k (col l)
    | None => d
    end
  else d.

(** Lines 77-86: the dict [df_data]. *)
Definition df_data_of (data : GetResult.t) (max_length : Z) : dict :=
  let ids := GetResult.ids data in
  let documents := GetResult.documents data in
  let metadata := GetResult.metadatas data in
  let embeddings := GetResult.embeddings data in
  let df_data : dict := [] in
  let df_data := set_when (fits ids max_length) df_data "ids" ids IdCol in
  let df_data :=
    set_when (fits documents max_length) df_data "documents" documents DocumentCol in
  let df_data :=
    set_when (fits metadata max_length) df_data "metadatas" metadata MetadataCol in
  set_when (fits embeddings max_length) df_data "embeddings_count" embeddings
    (fun l => IntCol (embeddings_count l)).

(** How the reconciliation of one collection ends. *)
Inductive outcome : Type :=
| EmptyCollection                 (* line 73: "This collection is empty" *)
| Table (df : dataframe)          (* lines 89-90: the table is shown *)
| InconsistentLengths.            (* line 228: "Could not create DataFrame ..." *)

(** Lines 72-74, 88-89 and 227-228: which way the code goes, given the
    maximum and the dict built from it. *)
Definition select (max_length : Z) (df_data : dict) : result outcome :=
  if max_length =? 0 then Ok EmptyCollection
  else if dict_truthy df_data then
    match DataFrame df_data with
    | Ok df => Ok (Table df)
    | Raise e => Raise e
    end
  else Ok InconsistentLengths.

(** Lines 61-90 and 227-228 as a function of the fetched data. *)
Definition reconcile (data : GetResult.t) : result outcome :=
  let L := lengths_of data in
  let m := max_length L in
  select m (df_data_of data m).

(** ** Streamlit calls and store calls, as a trace *)

Inductive event : Type :=
| print_ (s : string)
| st_header (s : string)
| st_markdown (s : string)
| st_write (s : string)
| st_info (s : string)
| st_warning (s : string)
| st_error (s : string)
| st_dataframe (df : dataframe)
| st_write_best_match (distances : list pyfloat)  (* line 216, see [best_match_text] *)
| st_write_average (distances : list pyfloat)     (* line 217, see [average_text] *)
| call_get (limit offset : Z)                     (* line 132 *)
| call_query (p : QueryParams.t).                 (* line 190 *)

(** A computation that writes events and may raise. *)
Definition ui (A : Type) : Type := (list event * result A)%type.

Definition ret {A : Type} (a : A) : ui A := ([], Ok a).

Definition bind {A B : Type} (m : ui A) (k : A -> ui B) : ui B :=
  match m with
  | (tr, Ok a) => let (tr', r) := k a in ((tr ++ tr')%list, r)
  | (tr, Raise e) => (tr, Raise e)
  end.

Definition emit (ev : event) : ui unit := ([ev], Ok tt).

Definition lift {A : Type} (r : result A) : ui A := ([], r).

(** A call of a method of the store: the call is recorded, then it returns
    or raises. *)
Definition call {A : Type} (ev : event) (r : result A) : ui A := ([ev], r).

(** [try: m except Exception as e: h e]. *)
Definition try_except {A : Type} (m : ui A) (h : exn -> ui A) : ui A :=
  match m with
  | (tr, Ok a) => (tr, Ok a)
  | (tr, Raise e) => let (tr', r) := h e in ((tr ++ tr')%list, r)
  end.

Definition trace {A : Type} (m : ui A) : list event := fst m.

Declare Scope ui_scope.
Delimit Scope ui_scope with ui.
Notation "x <- m ;; k" := (bind m (fun x => k))
  (at level 61, m at next level, right associativity) : ui_scope.
Notation "m ;; k" := (bind m (fun _ => k))
  (at level 61, right associativity) : ui_scope.
Open Scope ui_scope.

(** ** Widget keys

    Streamlit keeps the keys of the widgets created so far in the run and
    refuses to create a widget under a key already taken.  The keys stay
    taken when an exception is raised later. *)
Definition registry : Type := list string.

(** A computation that also creates widgets. *)
Definition run (A : Type) : Type := registry -> ui A * registry.

Definition rret {A : Type} (a : A) : run A := fun keys => (ret a, keys).

Definition rlift {A : Type} (m : ui A) : run A := fun keys => (m, keys).

Definition rbind {A B : Type} (m : run A) (k : A -> run B) : run B :=
  fun keys =>
    match m keys with
    | ((tr, Ok a), keys') =>
        match k a keys' with
        | ((tr', r), keys'') => (((tr ++ tr')%list, r), keys'')
        end
    | ((tr, Raise e), keys') => ((tr, Raise e), keys')
    end.

(** The creation of a widget under [key]. *)
Definition widget (key : string) : run unit :=
  fun keys =>
    if existsb (String.eqb key) keys
    then (([], Raise (DuplicateWidgetID key)), keys)
    else (([], Ok tt), key :: keys).

(** [try: m except Exception as e: h e]. *)
Definition rtry {A : Type} (m : run A) (h : exn -> run A) : run A :=
  fun keys =>
    match m keys with
    | ((tr, Ok a), keys') => ((tr, Ok a), keys')
    | ((tr, Raise e), keys') =>
        match h e keys' with
        | ((tr', r), keys'') => (((tr ++ tr')%list, r), keys'')
        end
    end.

Declare Scope run_scope.
Delimit Scope run_scope with run.
Notation "x <- m ;; k" := (rbind m (fun x => k))
  (at level 61, m at next level, right associativity) : run_scope.
Notation "m ;; k" := (rbind m (fun _ => k))
  (at level 61, right associativity) : run_scope.

(** ** The widgets of one collection (lines 99-130)

    Streamlit keeps them in the session under keys that end in the
    collection's name; a run of the script reads their current values. *)
Record widgets : Type := mk_widgets {
  query_text : string;             (* text_input "Search in ..." *)
  n_results : Z;                   (* number_input, min 1, max 50, default 5 *)
  include_distances : bool;        (* checkbox, default on *)
  where_filter : string;           (* text_input "Metadata filter ..." *)
  where_document_filter : string;  (* text_input "Document content filter ..." *)
  browse_limit : Z;                (* number_input, min 1, max 100, default 10 *)
  browse_offset : Z;               (* number_input, min 0, default 0 *)
  browse_btn : bool                (* st.button "Browse" was pressed *)
}.

(** ** The browse tab (lines 130-156) *)

Definition browse_tab (c : collection) (w : widgets) : ui unit :=
  try_except
    (browse_results <-
       call (call_get (browse_limit w) (browse_offset w))
            (get_page c (browse_limit w) (browse_offset w)) ;;
     emit (st_markdown "##### Browse Results:") ;;
     let ids := GetResult.ids browse_results in
     let documents := GetResult.documents browse_results in
     let metadatas := GetResult.metadatas browse_results in
     if truthy ids then
       let browse_data : dict := [] in
       let browse_data := set_when (truthy ids) browse_data "ids" ids IdCol in
       let browse_data :=
         set_when (truthy documents) browse_data "documents" documents DocumentCol in
       let browse_data :=
         set_when (truthy metadatas) browse_data "metadatas" metadatas MetadataCol in
       if dict_truthy browse_data then
         browse_df <- lift (DataFrame browse_data) ;;
         emit (st_dataframe browse_df) ;;
         n <- lift (py_len ids) ;;
         emit (st_write ("Showing items " ++ str_int (browse_offset w) ++ " to "
                         ++ str_int (browse_offset w + n)))
       else emit (st_info "No data to display")
     else emit (st_info "No items found in the specified range"))
    (fun browse_error =>
       emit (st_error ("Browse failed: " ++ str_exn browse_error))).

(** ** The query tab (lines 160-225, the body of [if query_text:]) *)

(** [x and x[0]]: the first batch of a field of the query's response. *)
Definition first_batch {A : Type} (x : option (list (list A))) : option (list A) :=
  match x with
  | Some (batch :: _) => Some batch
  | Some [] | None => None
  end.

(** [if v: query_params[key] = v]: the value stored under the key, if any. *)
Definition attached (v : option json) : option json :=
  match v with
  | Some j => if json_truthy j then Some j else None
  | None => None
  end.

Section Query.

(** [json.loads] on a str: the decoded value, or the exception it raises:
    [json.JSONDecodeError] for a text that is not JSON, and also others
    ([RecursionError] on deep nesting, [ValueError] on an integer of too
    many digits). *)
Variable json_loads : string -> result json.

(** Lines 164-169 and 171-176: one filter.  Only [json.JSONDecodeError] is
    caught here; any other exception goes on to the handler of line 223. *)
Definition parse_filter (text warning : string) : ui (option json) :=
  if (text =? "")%string then ret None
  else match json_loads text with
       | Ok v => ret (Some v)
       | Raise (JSONDecodeError _) => emit (st_warning warning) ;; ret None
       | Raise e => lift (Raise e)
       end.

Definition query_tab (c : collection) (w : widgets) (max_length : Z) : ui unit :=
  try_except
    (where_dict <-
       parse_filter (where_filter w)
         "Invalid JSON format in metadata filter. Ignoring filter." ;;
     where_document_dict <-
       parse_filter (where_document_filter w)
         "Invalid JSON format in document filter. Ignoring filter." ;;
     let query_params :=
       {| QueryParams.query_texts := [query_text w];
          QueryParams.n_results := Z.min (n_results w) max_length;
          QueryParams.where_ := attached where_dict;
          QueryParams.where_document := attached where_document_dict |} in
     query_results <- call (call_query query_params) (query c query_params) ;;
     emit (st_markdown "##### Query Results:") ;;
     let ids := first_batch (QueryResult.ids query_results) in
     let documents := first_batch (QueryResult.documents query_results) in
     let metadatas := first_batch (QueryResult.metadatas query_results) in
     let distances := first_batch (QueryResult.distances query_results) in
     if truthy ids then
       let result_data : dict := [] in
       let result_data := set_when (truthy ids) result_data "ids" ids IdCol in
       let result_data :=
         set_when (truthy documents) result_data "documents" documents DocumentCol in
       let result_data :=
         set_when (truthy metadatas) result_data "metadatas" metadatas MetadataCol in
       let result_data :=
         set_when (include_distances w && truthy distances)
           result_data "distances" distances FloatCol in
       if dict_truthy result_data then
         results_df <- lift (DataFrame result_data) ;;
         emit (st_dataframe results_df) ;;
         if include_distances w && dict_mem result_data "distances" then
           match dict_get result_data "distances" with
           | Some (FloatCol ds) =>
               emit (st_write_best_match ds) ;; emit (st_write_average ds)
           | _ => ret tt
           end
         else ret tt
       else emit (st_info "Query executed but no results to display")
     else emit (st_info "No results found for your query"))
    (fun query_error =>
       emit (st_error ("Query failed: " ++ str_exn query_error)) ;;
       emit (st_info "Make sure the collection has embeddings and the query is valid")).

(** ** One collection (lines 49-232) *)

(** [str(lengths)]. *)
Definition repr_lengths (L : lengths) : string :=
  "{'ids': " ++ str_int (ids_len L)
  ++ ", 'embeddings': " ++ str_int (embeddings_len L)
  ++ ", 'metadatas': " ++ str_int (metadatas_len L)
  ++ ", 'documents': " ++ str_int (documents_len L) ++ "}".

(** Lines 93-225: the two tabs.  Every widget is created under a key made
    of a prefix and the collection's name. *)
Definition collection_tabs (c : collection) (w : widgets) (max_length : Z) : run unit :=
  (rlift (emit (st_markdown "#### Search Collection")) ;;
   widget ("query_" ++ name c) ;;
   widget ("n_results_" ++ name c) ;;
   widget ("distances_" ++ name c) ;;
   widget ("where_" ++ name c) ;;
   widget ("where_doc_" ++ name c) ;;
   rlift (emit (st_markdown "#### Browse Collection")) ;;
   widget ("browse_limit_" ++ name c) ;;
   widget ("browse_offset_" ++ name c) ;;
   widget ("browse_btn_" ++ name c) ;;
   rlift (if browse_btn w then browse_tab c w else ret tt) ;;
   rlift (if (query_text w =? "")%string then ret tt
          else query_tab c w max_length))%run.

(** Lines 60-228: what is shown of the fetched data. *)
Definition show_collection (c : collection) (w : widgets) (data : GetResult.t)
  : run unit :=
  (let L := lengths_of data in
   rlift (emit (st_write ("Data lengths: " ++ repr_lengths L))) ;;
   state <- rlift (lift (reconcile data)) ;;
   match state with
   | EmptyCollection => rlift (emit (st_info "This collection is empty"))
   | Table df =>
       rlift (emit (st_dataframe df)) ;;
       collection_tabs c w (max_length L)
   | InconsistentLengths =>
       rlift (emit (st_warning
                      "Could not create DataFrame due to inconsistent data lengths"))
   end)%run.

(** The body of the [try] of lines 49-228. *)
Definition collection_body (c : collection) (w : widgets) : run unit :=
  (data <- rlift (lift (get c)) ;;
   let ids := GetResult.ids data in
   rlift (emit (st_markdown ("### Collection: **" ++ name c ++ "**"))) ;;
   count <- rlift (lift (py_len ids)) ;;
   rlift (emit (st_markdown ("**Count:** " ++ str_int count ++ " items"))) ;;
   show_collection c w data)%run.

(** One turn of the loop of line 48, from the keys registered so far. *)
Definition process_collection_from (c : collection) (w : widgets) : run unit :=
  rtry (collection_body c w)
    (fun e =>
       rlift (emit (st_error ("Error processing collection '" ++ name c ++ "': "
                              ++ str_exn e)))).

(** The run of a collection when no widget has been created before it, as
    for the first collection listed. *)
Definition process_collection (c : collection) (w : widgets) : ui unit :=
  fst (process_collection_from c w []).

(** ** All collections (lines 36-232) *)

Record client : Type := mk_client {
  list_collections : result (list collection)
}.

Fixpoint for_each (cs : list collection) (session : string -> widgets) : run unit :=
  match cs with
  | [] => rret tt
  | c :: cs' =>
      (process_collection_from c (session (name c)) ;; for_each cs' session)%run
  end.

(** Lines 36-232.  No widget is created before the loop, so the loop starts
    from an empty registry. *)
Definition display_collections (cl : client) (session : string -> widgets) : ui unit :=
  collections <- lift (list_collections cl) ;;
  emit (print_ ("Found " ++ str_int (len collections) ++ " collections")) ;;
  emit (st_header "Collections") ;;
  match collections with
  | [] => emit (st_info "No collections found in this ChromaDB instance")
  | _ :: _ => fst (for_each collections session [])
  end.

End Query.

(** ** Reading a trace *)

(** The arguments of the [collection.query] calls of a trace, in order. *)
Fixpoint query_calls (tr : list event) : list QueryParams.t :=
  match tr with
  | [] => []
  | call_query p :: tr' => p :: query_calls tr'
  | _ :: tr' => query_calls tr'
  end.

(** The tables shown by [st.dataframe], in order. *)
Fixpoint dataframes (tr : list event) : list dataframe :=
  match tr with
  | [] => []
  | st_dataframe df :: tr' => df :: dataframes tr'
  | _ :: tr' => dataframes tr'
  end.

(** The key under which a field of the fetched data enters [df_data]. *)
Definition column_name (f : field) : string :=
  match f with
  | Ids => "ids"
  | Embeddings => "embeddings_count"
  | Metadatas => "metadatas"
  | Documents => "documents"
  end.

(** The column stored for a field when it enters [df_data]: the list as
    fetched, and for the embeddings the list of their lengths. *)
Definition column_of (data : GetResult.t) (f : field) : option column :=
  match f with
  | Ids => option_map IdCol (GetResult.ids data)
  | Embeddings =>
      option_map (fun l => IntCol (embeddings_count l)) (GetResult.embeddings data)
  | Metadatas => option_map MetadataCol (GetResult.metadatas data)
  | Documents => option_map DocumentCol (GetResult.documents data)
  end.

(** ** The parts of a run, named for the statements below *)

(** Whether a field passes the test of lines 78, 80, 82 and 85. *)
Definition kept (data : GetResult.t) (m : Z) (f : field) : bool :=
  match f with
  | Ids => fits (GetResult.ids data) m
  | Embeddings => fits (GetResult.embeddings data) m
  | Metadatas => fits (GetResult.metadatas data) m
  | Documents => fits (GetResult.documents data) m
  end.

(** The entry a field contributes to [df_data]. *)
Definition entry (data : GetResult.t) (m : Z) (f : field) : dict :=
  if kept data m f then
    match column_of data f with
    | Some c => [(column_name f, c)]
    | None => []
    end
  else [].

(** The column a returned field contributes to [browse_data] or
    [result_data]: none when the field is [None] or empty. *)
Definition column_if_truthy {A : Type} (k : string) (x : option (list A))
    (col : list A -> column) : dict :=
  match x with
  | Some (a :: l) => [(k, col (a :: l))]
  | Some [] | None => []
  end.

(** Lines 139-145: the dict [browse_data] built from a page. *)
Definition browse_data_of (page : GetResult.t) : dict :=
  let ids := GetResult.ids page in
  let documents := GetResult.documents page in
  let metadatas := GetResult.metadatas page in
  set_when (truthy metadatas)
    (set_when (truthy documents)
       (set_when (truthy ids) [] "ids" ids IdCol)
       "documents" documents DocumentCol)
    "metadatas" metadatas MetadataCol.

(** Line 156: the report of a failed browse. *)
Definition browse_failed (e : exn) : list event :=
  [st_error ("Browse failed: " ++ str_exn e)].

(** The range line of line 150. *)
Definition showing_items (offset count : Z) : event :=
  st_write ("Showing items " ++ str_int offset ++ " to " ++ str_int (offset + count)).

(** What the browse tab writes once the page has come back. *)
Definition browse_shown (w : widgets) (page : GetResult.t) : list event :=
  st_markdown "##### Browse Results:" ::
  if truthy (GetResult.ids page) then
    match DataFrame (browse_data_of page) with
    | Ok df => [st_dataframe df;
                showing_items (browse_offset w) (len_or_0 (GetResult.ids page))]
    | Raise e => browse_failed e
    end
  else [st_info "No items found in the specified range"].

(** Lines 196-208: the dict [result_data] built from a response. *)
Definition result_data_of (w : widgets) (r : QueryResult.t) : dict :=
  let ids := first_batch (QueryResult.ids r) in
  let documents := first_batch (QueryResult.documents r) in
  let metadatas := first_batch (QueryResult.metadatas r) in
  let distances := first_batch (QueryResult.distances r) in
  set_when (include_distances w && truthy distances)
    (set_when (truthy metadatas)
       (set_when (truthy documents)
          (set_when (truthy ids) [] "ids" ids IdCol)
          "documents" documents DocumentCol)
       "metadatas" metadatas MetadataCol)
    "distances" distances FloatCol.

(** Lines 224-225: the report of a failed query. *)
Definition query_failed (e : exn) : list event :=
  [st_error ("Query failed: " ++ str_exn e);
   st_info "Make sure the collection has embeddings and the query is valid"].

(** Lines 215-217: the two statistics lines. *)
Definition stats_of (w : widgets) (result_data : dict) : list event :=
  if include_distances w && dict_mem result_data "distances" then
    match dict_get result_data "distances" with
    | Some (FloatCol ds) => [st_write_best_match ds; st_write_average ds]
    | _ => []
    end
  else [].

(** What the query tab writes once the response has come back. *)
Definition query_shown (w : widgets) (r : QueryResult.t) : list event :=
  st_markdown "##### Query Results:" ::
  if truthy (first_batch (QueryResult.ids r)) then
    match DataFrame (result_data_of w r) with
    | Ok df => st_dataframe df :: stats_of w (result_data_of w r)
    | Raise e => query_failed e
    end
  else [st_info "No results found for your query"].

(** ** The statistics lines (lines 216-217)

    Python floats are IEEE 754 binary64 values: 53 bits of precision,
    exponents below 1024, results rounded to nearest, ties to even. *)












Section Statistics.

(** The builtin [sum] on a list of floats.  Its result depends on the
    interpreter: additions from left to right up to Python 3.11
    ([sum_left]), a compensated summation from 3.12 on. *)
Variable float_sum : list spec_float -> spec_float.





End Statistics.

(** Lines 57-68: the heading, the count and the lengths. *)
Definition heading (c : collection) (data : GetResult.t) (count : Z) : list event :=
  [st_markdown ("### Collection: **" ++ name c ++ "**");
   st_markdown ("**Count:** " ++ str_int count ++ " items");
   st_write ("Data lengths: " ++ repr_lengths (lengths_of data))].

Section Parts.

Variable json_loads : string -> result json.

(** The value a filter text leaves in [where_dict] or
    [where_document_dict]: [None] for an empty text and for a text whose
    decoding raises. *)
Definition parsed (text : string) : option json :=
  if (text =? "")%string then None
  else match json_loads text with
       | Ok v => Some v
       | Raise _ => None
       end.

(** The warning a filter text causes: the one of line 169 or 176, when
    decoding raises [json.JSONDecodeError]. *)
Definition parse_warnings (text warning : string) : list event :=
  if (text =? "")%string then []
  else match json_loads text with
       | Raise (JSONDecodeError _) => [st_warning warning]
       | _ => []
       end.

(** The exception a filter text sends past lines 168 and 175, to the handler
    of line 223: whatever decoding raises other than
    [json.JSONDecodeError]. *)
Definition parse_crash (text : string) : option exn :=
  if (text =? "")%string then None
  else match json_loads text with
       | Ok _ | Raise (JSONDecodeError _) => None
       | Raise e => Some e
       end.

(** The first such exception of the two filters; the metadata filter is
    decoded first. *)
Definition filters_crash (w : widgets) : option exn :=
  match parse_crash (where_filter w) with
  | Some e => Some e
  | None => parse_crash (where_document_filter w)
  end.

(** Lines 179-188: the dict [query_params]. *)
Definition query_params_of (w : widgets) (max_length : Z) : QueryParams.t :=
  {| QueryParams.query_texts := [query_text w];
     QueryParams.n_results := Z.min (n_results w) max_length;
     QueryParams.where_ := attached (parsed (where_filter w));
     QueryParams.where_document := attached (parsed (where_document_filter w)) |}.

(** Lines 190-221: what the query tab writes once the filters are decoded. *)
Definition answered (c : collection) (w : widgets) (max_length : Z) : list event :=
  call_query (query_params_of w max_length) ::
  match query c (query_params_of w max_length) with
  | Ok r => query_shown w r
  | Raise e => query_failed e
  end.

(** Lines 93-225: what follows the table. *)
Definition tabs (c : collection) (w : widgets) (max_length : Z) : list event :=
  ([st_markdown "#### Search Collection"; st_markdown "#### Browse Collection"]
   ++ (if browse_btn w then trace (browse_tab c w) else [])
   ++ (if (query_text w =? "")%string then []
       else trace (query_tab json_loads c w max_length)))%list.

(** Lines 72-228: what follows the lengths, for a collection whose [ids] is
    a list. *)
Definition after_lengths (c : collection) (w : widgets) (data : GetResult.t)
  : list event :=
  let m := max_length (lengths_of data) in
  if m =? 0 then [st_info "This collection is empty"]
  else st_dataframe (mk_dataframe (df_data_of data m) m) :: tabs c w m.

End Parts.

(** ** Data for the examples *)

(** The double quote. *)
Definition dq : string := String "034"%char "".

(** The text of a JSON object with the one member topic, science. *)
Definition topic_filter : string :=
  "{" ++ dq ++ "topic" ++ dq ++ ": " ++ dq ++ "science" ++ dq ++ "}".

(** The example of the widget's own help text (line 113); with its single
    quotes it is not JSON. *)
Definition help_filter : string := "{'category': 'science'}".

(** A text of a hundred thousand opening brackets. *)
Definition deep_filter : string := Pos.iter (String "[") "" 100000.

(** [json.loads] on the texts of the examples below: the empty object, the
    object of [topic_filter], the brackets of [deep_filter], on which the
    decoder runs out of stack, and texts that are not JSON ([help_filter],
    and every other text is taken as such). *)
Definition sample_loads (text : string) : result json :=
  if (text =? "{}")%string then Ok (JObj [])
  else if (text =? topic_filter)%string then Ok (JObj [("topic", JStr "science")])
  else if (text =? deep_filter)%string then
    Raise (RecursionError
             "maximum recursion depth exceeded while decoding a JSON array from a unicode string")
  else if (text =? help_filter)%string then
    Raise (JSONDecodeError
             "Expecting property name enclosed in double quotes: line 1 column 2 (char 1)")
  else Raise (JSONDecodeError "Expecting value: line 1 column 1 (char 0)").

(** A response with no result. *)
Definition no_results : QueryResult.t := QueryResult.mk (Some [[]]) None None None.

(** A response of two batches; the second one is never read. *)
Definition two_batches : QueryResult.t :=
  QueryResult.mk (Some [["id2"; "id4"]; ["id1"]])
    (Some [[Some "two"; Some "four"]; [Some "one"]])
    (Some [[None; None]; [None]])
    (Some [[FFinite 1 (-2); FFinite 3 (-2)]; [FFinite 1 0]]).

(** A collection that answers every fetch with [data] and every query with
    [r]. *)
Definition serving (nm : string) (data : GetResult.t) (r : QueryResult.t)
  : collection :=
  mk_collection nm (Ok data) (fun _ _ => Ok data) (fun _ => Ok r).

(** A collection of four items. *)
Definition four_items : GetResult.t :=
  GetResult.mk (Some ["id1"; "id2"; "id3"; "id4"]) None
    (Some [None; None; None; None])
    (Some [Some "one"; Some "two"; Some "three"; Some "four"]).

Definition four_items_collection : collection :=
  serving "notes" four_items no_results.

Definition answering (r : QueryResult.t) : collection :=
  serving "notes" four_items r.

(** A collection of three items. *)
Definition three_items : GetResult.t :=
  GetResult.mk (Some ["id1"; "id2"; "id3"]) None (Some [None; None; None])
    (Some [Some "one"; Some "two"; Some "three"]).

Definition three_items_collection : collection :=
  serving "notes" three_items no_results.

(** A page whose documents are shorter than its ids. *)
Definition ragged_page : GetResult.t :=
  GetResult.mk (Some ["id1"; "id2"]) None None (Some [Some "one"]).

Definition ragged_collection : collection :=
  serving "ragged" ragged_page no_results.

(** A collection fetched with one id and three documents. *)
Definition one_id_three_documents : GetResult.t :=
  GetResult.mk (Some ["id1"]) None None (Some [Some "one"; Some "two"; Some "three"]).

Definition uneven_collection : collection :=
  serving "uneven" one_id_three_documents no_results.

(** A collection fetched with documents and no ids. *)
Definition documents_without_ids : GetResult.t :=
  GetResult.mk None None None (Some [Some "one"; Some "two"]).

Definition orphans_collection : collection :=
  serving "orphans" documents_without_ids no_results.

(** The widgets as they are when the Browse button is pressed with its
    defaults and nothing is searched. *)
Definition browse_10_from_0 : widgets :=
  mk_widgets "" 5 true "" "" 10 0 true.

(** The widgets of a search for five results, with the two filter texts. *)
Definition search_with (where_text where_document_text : string) : widgets :=
  mk_widgets "tides" 5 true where_text where_document_text 10 0 false.

(** ** Connecting to the store and running the script (lines 8-34, 234-247) *)

Module Chromadb.
(** The two constructors of the client library used by the viewer; each
    returns a client or raises. *)
Record api : Type := mk {
  HttpClient : string -> Z -> result client;     (* chromadb.HttpClient(host=, port=) *)
  PersistentClient : string -> result client     (* chromadb.PersistentClient(path=) *)
}.
End Chromadb.

(** The namespace returned by [parser.parse_args()] (lines 8-11): [path] is
    [None] when the option is not given. *)
Record args : Type := mk_args {
  host : string;
  port : Z;
  path : option string
}.

(** The defaults of lines 9-11. *)
Definition default_args : args := mk_args "localhost" 8000 None.


Section Script.

Variable json_loads : string -> result json.
Variable chromadb : Chromadb.api.
Variable session : string -> widgets.

(** Lines 15-24. *)
Definition view_collections_http (host : string) (port : Z) : ui unit :=
  emit (st_markdown ("### ChromaDB Server: " ++ host ++ ":" ++ str_int port)) ;;
  try_except
    (client <- lift (Chromadb.HttpClient chromadb host port) ;;
     display_collections json_loads client session)
    (fun e =>
       emit (st_error ("Failed to connect to ChromaDB server at " ++ host ++ ":"
                       ++ str_int port)) ;;
       emit (st_error ("Error: " ++ str_exn e)) ;;
       emit (st_info "Make sure your ChromaDB Docker container is running and accessible")).

(** Lines 26-34. *)
Definition view_collections_persistent (path : string) : ui unit :=
  emit (st_markdown ("### DB Path: " ++ path)) ;;
  try_except
    (client <- lift (Chromadb.PersistentClient chromadb path) ;;
     display_collections json_loads client session)
    (fun e =>
       emit (st_error ("Failed to open ChromaDB at path: " ++ path)) ;;
       emit (st_error ("Error: " ++ str_exn e))).


End Script.

(** ** Reading a trace, continued *)

(** The texts of the [st.warning] calls of a trace, in order. *)
Fixpoint warnings (tr : list event) : list string :=
  match tr with
  | [] => []
  | st_warning s :: tr' => s :: warnings tr'
  | _ :: tr' => warnings tr'
  end.

(** The texts of the [st.error] calls of a trace, in order. *)
Fixpoint errors (tr : list event) : list string :=
  match tr with
  | [] => []
  | st_error s :: tr' => s :: errors tr'
  | _ :: tr' => errors tr'
  end.

(** The limit and offset of the paged fetches of a trace, in order. *)
Fixpoint page_calls (tr : list event) : list (Z * Z) :=
  match tr with
  | [] => []
  | call_get limit offset :: tr' => (limit, offset) :: page_calls tr'
  | _ :: tr' => page_calls tr'
  end.

(** The lists of distances of the statistics lines of a trace: those of the
    best-match lines and those of the average lines. *)
Fixpoint best_match_lines (tr : list event) : list (list pyfloat) :=
  match tr with
  | [] => []
  | st_write_best_match ds :: tr' => ds :: best_match_lines tr'
  | _ :: tr' => best_match_lines tr'
  end.

Fixpoint average_lines (tr : list event) : list (list pyfloat) :=
  match tr with
  | [] => []
  | st_write_average ds :: tr' => ds :: average_lines tr'
  | _ :: tr' => average_lines tr'
  end.

(** A table whose columns all have as many entries as the table has rows,
    and which has a column and a row. *)
Definition well_formed (df : dataframe) : Prop :=
  Forall (fun kc => col_len (snd kc) = nrows df) (columns df)
  /\ dict_truthy (columns df) = true
  /\ 0 < nrows df.

(** An absent list taken as an empty one. *)
Definition or_empty {A : Type} (x : option (list A)) : option (list A) :=
  match x with
  | Some l => Some l
  | None => Some []
  end.

(** The fetched data with every absent field but [ids] replaced by an empty
    list. *)
Definition absent_as_empty (data : GetResult.t) : GetResult.t :=
  GetResult.mk (GetResult.ids data)
    (or_empty (GetResult.embeddings data))
    (or_empty (GetResult.metadatas data))
    (or_empty (GetResult.documents data)).

(** The order in which lines 78-86 fill [df_data]. *)
Definition column_order : list string :=
  ["ids"; "documents"; "metadatas"; "embeddings_count"].

(** ** More data for the examples *)

(** A collection whose fetch fails. *)
Definition broken_collection : collection :=
  mk_collection "broken" (Raise (ClientError "collection not found"))
    (fun _ _ => Raise (ClientError "collection not found"))
    (fun _ => Raise (ClientError "collection not found")).

(** A collection with nothing in it. *)
Definition nothing : GetResult.t := GetResult.mk (Some []) None None None.

Definition empty_collection : collection := serving "empty" nothing no_results.

(** A collection of four items whose store calls fail. *)
Definition failing_collection : collection :=
  mk_collection "notes" (Ok four_items)
    (fun _ _ => Raise (ClientError "timeout"))
    (fun _ => Raise (ClientError "no embedding function")).

(** A client library whose server is down and whose local store lists the
    collections [cs]. *)
Definition local_only (cs : list collection) : Chromadb.api :=
  Chromadb.mk (fun _ _ => Raise (ClientError "Connection refused"))
              (fun _ => Ok (mk_client (Ok cs))).

(** The widgets left at their defaults, for every collection. *)
Definition untouched (nm : string) : widgets := mk_widgets "" 5 true "" "" 10 0 false.

Definition untouched_widgets : widgets := untouched "".

(** A response whose first batch has two ids and one document. *)
Definition ragged_results : QueryResult.t :=
  QueryResult.mk (Some [["id1"; "id2"]]) (Some [[Some "one"]]) None None.

(** A response with documents and distances and no ids. *)
Definition results_without_ids : QueryResult.t :=
  QueryResult.mk (Some [[]]) (Some [[Some "one"]]) None (Some [[FFinite 1 (-1)]]).

(** A client whose collections cannot be listed, and a client library whose
    local store opens to it. *)
Definition unlistable : client := mk_client (Raise (ClientError "database is locked")).

Definition locked_store : Chromadb.api :=
  Chromadb.mk (fun _ _ => Raise (ClientError "Connection refused"))
              (fun _ => Ok unlistable).

(** ** Widget keys and stop reports, named for the statements below *)

(** The keys of the widgets of the collection named [nm] (lines 99-130), the
    last created first, as the registry holds them. *)
Definition own_keys (nm : string) : list string :=
  ["browse_btn_" ++ nm; "browse_offset_" ++ nm; "browse_limit_" ++ nm;
   "where_doc_" ++ nm; "where_" ++ nm; "distances_" ++ nm;
   "n_results_" ++ nm; "query_" ++ nm].

(** Whether a key is taken in a registry. *)
Definition taken (keys : registry) (key : string) : bool :=
  existsb (String.eqb key) keys.

(** Two collection names whose widgets get different keys: the names differ,
    and neither is the other one after [doc_] (the prefixes [where_] and
    [where_doc_] of lines 112 and 117 meet there). *)
Definition compatible (n1 n2 : string) : Prop :=
  n1 <> n2 /\ n1 <> "doc_" ++ n2 /\ n2 <> "doc_" ++ n1.

(** The two stop reports: line 73 and line 228. *)
Definition empty_report : event := st_info "This collection is empty".

Definition inconsistent_report : event :=
  st_warning "Could not create DataFrame due to inconsistent data lengths".

Definition is_stop_report (ev : event) : bool :=
  match ev with
  | st_info s => (s =? "This collection is empty")%string
  | st_warning s =>
      (s =? "Could not create DataFrame due to inconsistent data lengths")%string
  | _ => false
  end.

(** The line of line 68. *)
Definition lengths_line (data : GetResult.t) : event :=
  st_write ("Data lengths: " ++ repr_lengths (lengths_of data)).

(** Two collections named [xyz] and [doc_xyz], of three items each. *)
Definition xyz_collection : collection := serving "xyz" three_items no_results.

Definition doc_xyz_collection : collection := serving "doc_xyz" three_items no_results.

(** The collection [c] with [data] as the result of its full fetch. *)
Definition with_data (c : collection) (data : GetResult.t) : collection :=
  mk_collection (name c) (Ok data) (get_page c) (query c).

(** * Properties *)

(** ** Lengths and the maximum *)

Lemma len_nonneg {A : Type} (l : list A) : 0 <= len l.
Proof. unfold len. lia. Qed.

Lemma len_or_0_eq {A : Type} (x : option (list A)) :
  len_or_0 x = match x with Some l => len l | None => 0 end.
Proof. destruct x as [[|a l]|]; reflexivity. Qed.

Lemma len_or_0_nonneg {A : Type} (x : option (list A)) : 0 <= len_or_0 x.
Proof.
  rewrite len_or_0_eq. destruct x as [l|]; [apply len_nonneg | lia].
Qed.

Lemma truthy_iff_pos {A : Type} (x : option (list A)) :
  truthy x = true <-> 0 < len_or_0 x.
Proof.
  destruct x as [[|a l]|]; cbn; unfold len; cbn [length]; split; intros H;
    try discriminate; try lia; reflexivity.
Qed.

Lemma fits_iff {A : Type} (x : option (list A)) (m : Z) :
  0 < m -> (fits x m = true <-> len_or_0 x = m).
Proof.
  intros Hm. unfold fits. rewrite andb_true_iff, Z.eqb_eq, truthy_iff_pos. lia.
Qed.

Lemma fits_zero {A : Type} (x : option (list A)) : fits x 0 = false.
Proof.
  unfold fits. destruct (truthy x) eqn:E; [|reflexivity].
  apply truthy_iff_pos in E. cbn. apply Z.eqb_neq. lia.
Qed.

Lemma max_length_eq (L : lengths) :
  max_length L =
  Z.max (Z.max (Z.max (ids_len L) (embeddings_len L)) (metadatas_len L)) (documents_len L).
Proof. reflexivity. Qed.

Lemma max_length_upper (L : lengths) (f : field) : lengths_get L f <= max_length L.
Proof. rewrite max_length_eq. destruct f; cbn; lia. Qed.

Lemma max_length_attained (L : lengths) : exists f, lengths_get L f = max_length L.
Proof.
  rewrite max_length_eq.
  destruct (Z.max_spec (Z.max (Z.max (ids_len L) (embeddings_len L)) (metadatas_len L))
              (documents_len L)) as [[_ ->]|[_ ->]]; [exists Documents; reflexivity|].
  destruct (Z.max_spec (Z.max (ids_len L) (embeddings_len L)) (metadatas_len L))
    as [[_ ->]|[_ ->]]; [exists Metadatas; reflexivity|].
  destruct (Z.max_spec (ids_len L) (embeddings_len L)) as [[_ ->]|[_ ->]];
    [exists Embeddings | exists Ids]; reflexivity.
Qed.

Lemma lengths_get_of (data : GetResult.t) (f : field) :
  lengths_get (lengths_of data) f =
  match f with
  | Ids => len_or_0 (GetResult.ids data)
  | Embeddings => len_or_0 (GetResult.embeddings data)
  | Metadatas => len_or_0 (GetResult.metadatas data)
  | Documents => len_or_0 (GetResult.documents data)
  end.
Proof. destruct f; reflexivity. Qed.

Lemma max_length_nonneg (data : GetResult.t) : 0 <= max_length (lengths_of data).
Proof.
  pose proof (max_length_upper (lengths_of data) Ids) as H.
  rewrite lengths_get_of in H.
  pose proof (len_or_0_nonneg (GetResult.ids data)). lia.
Qed.

(** ** The dict [df_data] *)

(** The four keys are distinct, so each assignment of lines 79-86 appends:
    [df_data] lists the kept fields in the order ids, documents, metadatas,
    embeddings_count. *)
Lemma df_data_of_entries (data : GetResult.t) (m : Z) :
  df_data_of data m =
  (entry data m Ids ++ entry data m Documents
   ++ entry data m Metadatas ++ entry data m Embeddings)%list.
Proof.
  destruct data as [i e md d].
  unfold df_data_of, entry, kept, column_of, set_when; cbn [GetResult.ids
    GetResult.embeddings GetResult.metadatas GetResult.documents column_name].
  destruct i as [i|], e as [e|], md as [md|], d as [d|];
    cbn [option_map];
    repeat match goal with
           | |- context [fits ?x m] => destruct (fits x m)
           end; reflexivity.
Qed.

Lemma dict_mem_df_data (data : GetResult.t) (m : Z) (f : field) :
  dict_mem (df_data_of data m) (column_name f) = kept data m f.
Proof.
  rewrite df_data_of_entries. destruct data as [i e md d].
  unfold entry, kept, column_of; cbn [GetResult.ids GetResult.embeddings
    GetResult.metadatas GetResult.documents].
  destruct i as [i|], e as [e|], md as [md|], d as [d|];
    cbn [fits truthy andb option_map];
    repeat match goal with
           | |- context [fits (Some ?l) m] => destruct (fits (Some l) m)
           end; destruct f; reflexivity.
Qed.

Lemma dict_get_df_data (data : GetResult.t) (m : Z) (f : field) :
  dict_get (df_data_of data m) (column_name f) =
  if kept data m f then column_of data f else None.
Proof.
  rewrite df_data_of_entries. destruct data as [i e md d].
  unfold entry, kept, column_of; cbn [GetResult.ids GetResult.embeddings
    GetResult.metadatas GetResult.documents].
  destruct i as [i|], e as [e|], md as [md|], d as [d|];
    cbn [fits truthy andb option_map];
    repeat match goal with
           | |- context [fits (Some ?l) m] => destruct (fits (Some l) m)
           end; destruct f; reflexivity.
Qed.

Lemma kept_iff (data : GetResult.t) (m : Z) (f : field) :
  0 < m -> (kept data m f = true <-> lengths_get (lengths_of data) f = m).
Proof.
  intros Hm. rewrite lengths_get_of. destruct f; cbn [kept]; apply fits_iff; exact Hm.
Qed.

Lemma kept_zero (data : GetResult.t) (f : field) : kept data 0 f = false.
Proof. destruct f; apply fits_zero. Qed.

Lemma len_embeddings_count (l : list (option (list pyfloat))) :
  len (embeddings_count l) = len l.
Proof. unfold len, embeddings_count. now rewrite length_map. Qed.

Lemma column_of_len (data : GetResult.t) (f : field) (c : column) :
  column_of data f = Some c -> col_len c = lengths_get (lengths_of data) f.
Proof.
  rewrite lengths_get_of.
  destruct data as [i e md d], f; cbn [column_of GetResult.ids GetResult.embeddings
    GetResult.metadatas GetResult.documents]; intros H;
    match type of H with
    | option_map _ ?x = _ => destruct x as [l|]; [|discriminate]
    end; cbn in H; injection H as <-; rewrite len_or_0_eq; cbn [col_len];
    [reflexivity | apply len_embeddings_count | reflexivity | reflexivity].
Qed.

Lemma entry_col_len (data : GetResult.t) (m : Z) (f : field) :
  0 < m -> Forall (fun kc => col_len (snd kc) = m) (entry data m f).
Proof.
  intros Hm. unfold entry. destruct (kept data m f) eqn:K; [|constructor].
  destruct (column_of data f) as [c|] eqn:C; [|constructor].
  constructor; [|constructor]. cbn [snd].
  rewrite (column_of_len _ _ _ C). now apply kept_iff.
Qed.

Lemma df_data_col_len (data : GetResult.t) (m : Z) :
  0 < m -> Forall (fun kc => col_len (snd kc) = m) (df_data_of data m).
Proof.
  intros Hm. rewrite df_data_of_entries.
  repeat (apply Forall_app; split); now apply entry_col_len.
Qed.

(** [pd.DataFrame] accepts a dict whose columns all have [m] entries, and the
    frame has [m] rows. *)
Lemma DataFrame_uniform (d : dict) (m : Z) :
  dict_truthy d = true ->
  Forall (fun kc => col_len (snd kc) = m) d ->
  DataFrame d = Ok (mk_dataframe d m).
Proof.
  destruct d as [|[k c] rest]; [discriminate|]. intros _ H.
  apply Forall_cons_iff in H as [Hc Hrest]. cbn [snd] in Hc. cbn [DataFrame].
  replace (forallb _ rest) with true; [now rewrite Hc|].
  symmetry. apply forallb_forall. intros kc Hin.
  rewrite Forall_forall in Hrest. apply Z.eqb_eq. rewrite Hc. now apply Hrest.
Qed.

(** With a positive maximum some field is kept. *)
Lemma df_data_truthy (data : GetResult.t) :
  0 < max_length (lengths_of data) ->
  dict_truthy (df_data_of data (max_length (lengths_of data))) = true.
Proof.
  intros Hm. destruct (max_length_attained (lengths_of data)) as [f Hf].
  apply (kept_iff data _ f Hm) in Hf. rewrite <- dict_mem_df_data in Hf.
  destruct (df_data_of data (max_length (lengths_of data))); [discriminate|reflexivity].
Qed.

(** With a zero maximum no field is kept. *)
Lemma df_data_zero (data : GetResult.t) : df_data_of data 0 = [].
Proof.
  rewrite df_data_of_entries. unfold entry. now rewrite !kept_zero.
Qed.

(** What [reconcile] returns, by the maximum. *)
Lemma reconcile_zero (data : GetResult.t) :
  max_length (lengths_of data) = 0 -> reconcile data = Ok EmptyCollection.
Proof. intros H. unfold reconcile, select. now rewrite H. Qed.

Lemma reconcile_positive (data : GetResult.t) :
  0 < max_length (lengths_of data) ->
  reconcile data =
  Ok (Table (mk_dataframe (df_data_of data (max_length (lengths_of data)))
                          (max_length (lengths_of data)))).
Proof.
  intros Hm. unfold reconcile, select.
  destruct (Z.eqb_spec (max_length (lengths_of data)) 0) as [E|_]; [lia|].
  rewrite (df_data_truthy data Hm).
  now rewrite (DataFrame_uniform _ _ (df_data_truthy data Hm) (df_data_col_len data _ Hm)).
Qed.

(** The reconciliation itself (lines 61-90, 227-228) never raises and never
    ends in the inconsistent-lengths state: the maximum is the length of one
    of the four fields, and that field passes the filter. *)
Lemma reconcile_total (data : GetResult.t) :
  reconcile data = Ok EmptyCollection /\ max_length (lengths_of data) = 0
  \/ exists df, reconcile data = Ok (Table df) /\ 0 < max_length (lengths_of data).
Proof.
  pose proof (max_length_nonneg data) as H0.
  destruct (Z.eq_dec (max_length (lengths_of data)) 0) as [E|E].
  - left. split; [now apply reconcile_zero | exact E].
  - right. eexists. split; [apply reconcile_positive|]; lia.
Qed.

Lemma df_data_keys (data : GetResult.t) (m : Z) (k : string) :
  In k (dict_keys (df_data_of data m)) -> exists f, k = column_name f.
Proof.
  rewrite df_data_of_entries. unfold dict_keys. rewrite !map_app, !in_app_iff.
  assert (E : forall f, In k (map fst (entry data m f)) -> k = column_name f).
  { intros f. unfold entry. destruct (kept data m f); [|intros []].
    destruct (column_of data f); [|intros []]. cbn. intros [<-|[]]. reflexivity. }
  intros [H|[H|[H|H]]]; apply E in H; eauto.
Qed.

Lemma embeddings_count_nth (embs : list (option (list pyfloat))) (k : nat)
    (emb : option (list pyfloat)) :
  nth_error embs k = Some emb ->
  nth_error (embeddings_count embs) k =
  Some (match emb with Some (x :: v) => len (x :: v) | Some [] | None => 0 end).
Proof.
  intros H. unfold embeddings_count. rewrite nth_error_map, H. cbn [option_map].
  destruct emb as [[|x v]|]; reflexivity.
Qed.

Lemma embeddings_count_nonneg (embs : list (option (list pyfloat))) :
  Forall (fun n => 0 <= n) (embeddings_count embs).
Proof.
  unfold embeddings_count. apply Forall_map, Forall_forall.
  intros emb _. apply len_or_0_nonneg.
Qed.

Lemma max_length_all_equal (data : GetResult.t) (N : Z) :
  (forall f, lengths_get (lengths_of data) f = N) ->
  max_length (lengths_of data) = N.
Proof.
  intros H. rewrite max_length_eq.
  pose proof (H Ids) as Hi. pose proof (H Embeddings) as He.
  pose proof (H Metadatas) as Hm. pose proof (H Documents) as Hd.
  cbn [lengths_get] in Hi, He, Hm, Hd. lia.
Qed.

(** ** Computations on traces *)

Lemma query_calls_app (tr1 tr2 : list event) :
  query_calls (tr1 ++ tr2) = (query_calls tr1 ++ query_calls tr2)%list.
Proof.
  induction tr1 as [|ev tr1 IH]; [reflexivity|].
  destruct ev; cbn; rewrite IH; reflexivity.
Qed.

Lemma dataframes_app (tr1 tr2 : list event) :
  dataframes (tr1 ++ tr2) = (dataframes tr1 ++ dataframes tr2)%list.
Proof.
  induction tr1 as [|ev tr1 IH]; [reflexivity|].
  destruct ev; cbn; rewrite IH; reflexivity.
Qed.

Lemma dict_set_truthy (d : dict) (k : string) (v : column) :
  dict_truthy (dict_set d k v) = true.
Proof. destruct d as [|[k' v'] d']; cbn; [|destruct (k' =? k)%string]; reflexivity. Qed.

Lemma set_when_truthy {A : Type} (cond : bool) (d : dict) (k : string)
    (x : option (list A)) (col : list A -> column) :
  dict_truthy d = true -> dict_truthy (set_when cond d k x col) = true.
Proof.
  intros H. unfold set_when. destruct cond, x; try exact H. apply dict_set_truthy.
Qed.

Lemma browse_data_truthy (page : GetResult.t) :
  truthy (GetResult.ids page) = true -> dict_truthy (browse_data_of page) = true.
Proof.
  intros H. unfold browse_data_of. do 2 apply set_when_truthy.
  rewrite H. unfold set_when. destruct (GetResult.ids page); [reflexivity|discriminate].
Qed.

(** The browse tab, run: one paged fetch, then the page shown or the failure
    reported; nothing is raised out of the tab. *)
Lemma browse_tab_eq (c : collection) (w : widgets) :
  browse_tab c w =
  (call_get (browse_limit w) (browse_offset w) ::
   match get_page c (browse_limit w) (browse_offset w) with
   | Ok page => browse_shown w page
   | Raise e => browse_failed e
   end, Ok tt).
Proof.
  unfold browse_tab, browse_shown, call.
  destruct (get_page c (browse_limit w) (browse_offset w)) as [page|e];
    [|reflexivity].
  cbn [bind emit try_except app].
  destruct (truthy (GetResult.ids page)) eqn:T; [|reflexivity].
  pose proof (browse_data_truthy page T) as D.
  unfold browse_data_of in *. cbv zeta in *. rewrite T in D |- *. rewrite D.
  unfold lift. destruct (DataFrame _) as [df|e]; [|reflexivity].
  destruct (GetResult.ids page) as [[|i l]|]; try discriminate. reflexivity.
Qed.

Lemma browse_data_of_columns (page : GetResult.t) :
  browse_data_of page =
  (column_if_truthy "ids" (GetResult.ids page) IdCol
   ++ column_if_truthy "documents" (GetResult.documents page) DocumentCol
   ++ column_if_truthy "metadatas" (GetResult.metadatas page) MetadataCol)%list.
Proof.
  unfold browse_data_of. destruct page as [i e md d].
  cbn [GetResult.ids GetResult.documents GetResult.metadatas].
  destruct i as [[|? ?]|], md as [[|? ?]|], d as [[|? ?]|]; reflexivity.
Qed.

Lemma column_if_truthy_len {A : Type} (k : string) (x : option (list A))
    (col : list A -> column) (n : Z) :
  (forall l, col_len (col l) = len l) ->
  (truthy x = true -> len_or_0 x = n) ->
  Forall (fun kc => col_len (snd kc) = n) (column_if_truthy k x col).
Proof.
  intros Hcol H. destruct x as [[|a l]|]; cbn; constructor; [|constructor].
  cbn [snd]. rewrite Hcol. rewrite <- H by reflexivity. reflexivity.
Qed.

(** ** The query tab *)

Section QueryFacts.

(** The facts hold for every decoder: [json.loads] stays a parameter. *)
Variable json_loads : string -> result json.

Lemma parse_filter_eq (text warning : string) :
  parse_filter json_loads text warning =
  (parse_warnings json_loads text warning,
   match parse_crash json_loads text with
   | Some e => Raise e
   | None => Ok (parsed json_loads text)
   end).
Proof.
  unfold parse_filter, parse_warnings, parse_crash, parsed.
  destruct (text =? "")%string; [reflexivity|].
  destruct (json_loads text) as [v|[]]; reflexivity.
Qed.

(** A text that is not read as crashing leaves no warning, or it is not
    JSON. *)
Lemma parse_crash_no_warning (text warning : string) (e : exn) :
  parse_crash json_loads text = Some e ->
  parse_warnings json_loads text warning = [].
Proof.
  unfold parse_crash, parse_warnings. destruct (text =? "")%string; [discriminate|].
  destruct (json_loads text) as [v|[]]; (discriminate || reflexivity).
Qed.

Lemma result_data_truthy (w : widgets) (r : QueryResult.t) :
  truthy (first_batch (QueryResult.ids r)) = true ->
  dict_truthy (result_data_of w r) = true.
Proof.
  intros H. unfold result_data_of. do 3 apply set_when_truthy.
  rewrite H. unfold set_when.
  destruct (first_batch (QueryResult.ids r)); [reflexivity|discriminate].
Qed.

(** The query tab, run: the warning of the metadata filter, then that of
    the document filter, one call of [collection.query], and the response
    shown or the failure reported; a filter whose decoding raises anything
    but [json.JSONDecodeError] ends the tab in the report of line 224
    before the call.  Nothing is raised out of the tab. *)
Lemma query_tab_eq (c : collection) (w : widgets) (m : Z) :
  query_tab json_loads c w m =
  ((parse_warnings json_loads (where_filter w)
      "Invalid JSON format in metadata filter. Ignoring filter."
    ++ match parse_crash json_loads (where_filter w) with
       | Some e => query_failed e
       | None =>
           parse_warnings json_loads (where_document_filter w)
             "Invalid JSON format in document filter. Ignoring filter."
           ++ match parse_crash json_loads (where_document_filter w) with
              | Some e => query_failed e
              | None => answered json_loads c w m
              end
       end)%list, Ok tt).
Proof.
  unfold query_tab, call, lift, emit, ret. rewrite !parse_filter_eq.
  destruct (parse_crash json_loads (where_filter w)) as [e1|];
    [cbn; rewrite ?app_nil_r; reflexivity|].
  destruct (parse_crash json_loads (where_document_filter w)) as [e2|];
    [cbn; rewrite ?app_nil_r, <- ?app_assoc; reflexivity|].
  cbn [bind]. unfold answered.
  fold (parsed json_loads (where_filter w));
    fold (parsed json_loads (where_document_filter w));
    fold (query_params_of json_loads w m).
  destruct (query c (query_params_of json_loads w m)) as [r|e];
    [|cbn; rewrite <- ?app_assoc; reflexivity].
  unfold query_shown.
  destruct (truthy (first_batch (QueryResult.ids r))) eqn:T;
    [|cbn; rewrite <- ?app_assoc; reflexivity].
  pose proof (result_data_truthy w r T) as D.
  unfold result_data_of in *. cbv zeta in *. rewrite T in D |- *.
  rewrite D.
  destruct (DataFrame _) as [df|e];
    [|cbn; rewrite <- ?app_assoc; reflexivity].
  unfold stats_of.
  destruct (include_distances w && dict_mem _ "distances");
    [|cbn; rewrite <- ?app_assoc; reflexivity].
  destruct (dict_get _ "distances") as [[| | | |ds]|];
    cbn; rewrite <- ?app_assoc; reflexivity.
Qed.

(** The tab when no filter crashes the decoder. *)
Lemma query_tab_decoded (c : collection) (w : widgets) (m : Z) :
  filters_crash json_loads w = None ->
  query_tab json_loads c w m =
  ((parse_warnings json_loads (where_filter w)
      "Invalid JSON format in metadata filter. Ignoring filter."
    ++ parse_warnings json_loads (where_document_filter w)
         "Invalid JSON format in document filter. Ignoring filter."
    ++ answered json_loads c w m)%list, Ok tt).
Proof.
  unfold filters_crash. intros H. rewrite query_tab_eq.
  destruct (parse_crash json_loads (where_filter w)); [discriminate|].
  now rewrite H.
Qed.

(** The tab when a filter crashes the decoder: the report of lines 224-225,
    after the warning of the metadata filter when the document filter is
    the one that crashes. *)
Lemma query_tab_crashed (c : collection) (w : widgets) (m : Z) (e : exn) :
  filters_crash json_loads w = Some e ->
  query_tab json_loads c w m =
  ((parse_warnings json_loads (where_filter w)
      "Invalid JSON format in metadata filter. Ignoring filter."
    ++ query_failed e)%list, Ok tt).
Proof.
  unfold filters_crash. intros H. rewrite query_tab_eq.
  destruct (parse_crash json_loads (where_filter w)) as [e1|] eqn:C1.
  - now injection H as <-.
  - rewrite H. now rewrite (parse_crash_no_warning _ _ _ H).
Qed.

Lemma query_calls_parse_warnings (text warning : string) :
  query_calls (parse_warnings json_loads text warning) = [].
Proof.
  unfold parse_warnings. destruct (text =? "")%string; [reflexivity|].
  destruct (json_loads text) as [v|[]]; reflexivity.
Qed.

Lemma query_calls_query_shown (w : widgets) (r : QueryResult.t) :
  query_calls (query_shown w r) = [].
Proof.
  unfold query_shown, stats_of. cbn [query_calls].
  destruct (truthy _); [|reflexivity].
  destruct (DataFrame _); [|reflexivity]. cbn [query_calls].
  destruct (include_distances w && dict_mem _ _); [|reflexivity].
  destruct (dict_get _ _) as [[| | | |ds]|]; reflexivity.
Qed.

(** The query tab calls [collection.query] once, with [query_params],
    unless a filter crashes the decoder, and then not at all. *)
Lemma query_tab_calls (c : collection) (w : widgets) (m : Z) :
  query_calls (trace (query_tab json_loads c w m)) =
  match filters_crash json_loads w with
  | Some _ => []
  | None => [query_params_of json_loads w m]
  end.
Proof.
  destruct (filters_crash json_loads w) as [e|] eqn:F.
  - rewrite (query_tab_crashed c w m e F). cbn [trace fst].
    now rewrite query_calls_app, query_calls_parse_warnings.
  - rewrite (query_tab_decoded c w m F). cbn [trace fst]. unfold answered.
    rewrite !query_calls_app, !query_calls_parse_warnings. cbn [app query_calls].
    destruct (query c _); [now rewrite query_calls_query_shown | reflexivity].
Qed.



Lemma result_data_of_columns (w : widgets) (r : QueryResult.t) :
  result_data_of w r =
  (column_if_truthy "ids" (first_batch (QueryResult.ids r)) IdCol
   ++ column_if_truthy "documents" (first_batch (QueryResult.documents r)) DocumentCol
   ++ column_if_truthy "metadatas" (first_batch (QueryResult.metadatas r)) MetadataCol
   ++ (if include_distances w
       then column_if_truthy "distances" (first_batch (QueryResult.distances r)) FloatCol
       else []))%list.
Proof.
  unfold result_data_of.
  destruct (first_batch (QueryResult.ids r)) as [[|? ?]|],
           (first_batch (QueryResult.documents r)) as [[|? ?]|],
           (first_batch (QueryResult.metadatas r)) as [[|? ?]|],
           (first_batch (QueryResult.distances r)) as [[|? ?]|],
           (include_distances w); reflexivity.
Qed.

Lemma dataframes_parse_warnings (text warning : string) :
  dataframes (parse_warnings json_loads text warning) = [].
Proof.
  unfold parse_warnings. destruct (text =? "")%string; [reflexivity|].
  destruct (json_loads text) as [v|[]]; reflexivity.
Qed.

(** The tables of the query tab are those shown after the call. *)
Lemma dataframes_query_tab (c : collection) (w : widgets) (m : Z) :
  dataframes (trace (query_tab json_loads c w m)) =
  match filters_crash json_loads w with
  | Some _ => []
  | None =>
      match query c (query_params_of json_loads w m) with
      | Ok r => dataframes (query_shown w r)
      | Raise _ => []
      end
  end.
Proof.
  destruct (filters_crash json_loads w) as [e|] eqn:F.
  - rewrite (query_tab_crashed c w m e F). cbn [trace fst].
    now rewrite dataframes_app, dataframes_parse_warnings.
  - rewrite (query_tab_decoded c w m F). cbn [trace fst]. unfold answered.
    rewrite !dataframes_app, !dataframes_parse_warnings. cbn [app dataframes].
    destruct (query c _); reflexivity.
Qed.

(** The tables the query tab shows: at most the one built from
    [result_data]. *)
Lemma query_tab_dataframes (c : collection) (w : widgets) (m : Z)
    (r : QueryResult.t) (df : dataframe) :
  query c (query_params_of json_loads w m) = Ok r ->
  In df (dataframes (trace (query_tab json_loads c w m))) ->
  columns df = result_data_of w r.
Proof.
  intros Hq. rewrite dataframes_query_tab, Hq.
  destruct (filters_crash json_loads w); [intros []|].
  unfold query_shown, stats_of. cbn [dataframes].
  destruct (truthy _); [|intros []].
  destruct (DataFrame (result_data_of w r)) as [df'|e] eqn:D; [|intros []].
  assert (C : columns df' = result_data_of w r).
  { unfold DataFrame in D. destruct (result_data_of w r) as [|[k col] rest].
    - injection D as <-. reflexivity.
    - destruct (forallb _ rest); [|discriminate]. injection D as <-. reflexivity. }
  cbn [dataframes].
  destruct (include_distances w && dict_mem _ _).
  - destruct (dict_get _ _) as [[| | | |ds]|]; cbn; intros [<-|[]]; exact C.
  - cbn. intros [<-|[]]. exact C.
Qed.

(** The two statistics lines follow the table exactly when distances are
    asked for and the first batch of distances is not empty. *)
Lemma stats_of_result_data (w : widgets) (r : QueryResult.t) :
  stats_of w (result_data_of w r) =
  if include_distances w && truthy (first_batch (QueryResult.distances r))
  then match first_batch (QueryResult.distances r) with
       | Some ds => [st_write_best_match ds; st_write_average ds]
       | None => []
       end
  else [].
Proof.
  unfold stats_of. rewrite result_data_of_columns.
  destruct (first_batch (QueryResult.ids r)) as [[|? ?]|],
           (first_batch (QueryResult.documents r)) as [[|? ?]|],
           (first_batch (QueryResult.metadatas r)) as [[|? ?]|],
           (first_batch (QueryResult.distances r)) as [[|? ?]|],
           (include_distances w); reflexivity.
Qed.

End QueryFacts.

(** ** Widget keys *)

Lemma doc_prefix_neq (nm : string) :
  (String "d" (String "o" (String "c" (String "_" nm))) =? nm)%string = false.
Proof.
  apply String.eqb_neq. intros H. apply (f_equal String.length) in H.
  cbn [String.length] in H. lia.
Qed.

Lemma doc_prefix_neq_sym (nm : string) :
  (nm =? String "d" (String "o" (String "c" (String "_" nm))))%string = false.
Proof. rewrite String.eqb_sym. apply doc_prefix_neq. Qed.

Lemma doc_prefix_ne (nm : string) : nm <> ("doc_" ++ nm)%string.
Proof.
  intros H. apply (f_equal String.length) in H. cbn [String.length append] in H. lia.
Qed.

Lemma taken_app (keys1 keys2 : registry) (key : string) :
  taken (keys1 ++ keys2)%list key = taken keys1 key || taken keys2 key.
Proof. apply existsb_app. Qed.

Lemma taken_In (keys : registry) (key : string) :
  taken keys key = true <-> In key keys.
Proof.
  unfold taken. rewrite existsb_exists. split.
  - intros [k [Hin E]]. apply String.eqb_eq in E. now subst k.
  - intros Hin. exists key. split; [exact Hin | apply String.eqb_refl].
Qed.

(** The widgets of two collections with compatible names have different
    keys. *)
Lemma own_keys_disjoint (n1 n2 k : string) :
  compatible n1 n2 -> In k (own_keys n1) -> In k (own_keys n2) -> False.
Proof.
  intros [Hne [H12 H21]] H1 H2. unfold own_keys in H1, H2. cbn [In] in H1, H2.
  repeat match goal with
         | H : _ \/ _ |- _ => destruct H as [H|H]
         | H : False |- _ => destruct H
         end;
    subst k; cbn [append] in H2;
    first [discriminate H2
          | injection H2 as E; first [apply Hne; congruence
                                     | apply H12; cbn [append]; congruence
                                     | apply H21; cbn [append]; congruence]].
Qed.

Lemma not_taken (keys : registry) (key : string) :
  ~ In key keys -> taken keys key = false.
Proof.
  intros H. destruct (taken keys key) eqn:T; [|reflexivity].
  exfalso. apply H. now apply taken_In.
Qed.

Lemma rbind_widget {A : Type} (key : string) (k : unit -> run A) (keys : registry) :
  rbind (widget key) k keys =
  if taken keys key then (([], Raise (DuplicateWidgetID key)), keys)
  else k tt (key :: keys).
Proof.
  unfold rbind, widget, taken. destruct (existsb _ keys); [reflexivity|].
  destruct (k tt (key :: keys)) as [[tr r] keys']. reflexivity.
Qed.

Lemma rbind_emit {A : Type} (ev : event) (k : unit -> run A) (keys : registry) :
  rbind (rlift (emit ev)) k keys =
  match k tt keys with
  | ((tr, r), keys') => ((ev :: tr, r), keys')
  end.
Proof. reflexivity. Qed.

(** ** One collection *)

Section CollectionFacts.

Variable json_loads : string -> result json.

(** The end of [collection_tabs], after the widgets: the two tabs run. *)
Lemma tabs_run (c : collection) (w : widgets) (m : Z) (keys : registry) :
  rbind (rlift (if browse_btn w then browse_tab c w else ret tt))
    (fun _ => rlift (if (query_text w =? "")%string then ret tt
                     else query_tab json_loads c w m)) keys =
  (((if browse_btn w then trace (browse_tab c w) else [])
    ++ (if (query_text w =? "")%string then []
        else trace (query_tab json_loads c w m)), Ok tt)%list, keys).
Proof.
  unfold rbind, rlift. rewrite browse_tab_eq, query_tab_eq.
  destruct (browse_btn w), (query_text w =? "")%string; reflexivity.
Qed.

(** The tabs of a collection none of whose keys is taken: every widget is
    created, and the trace is that of the two tabs. *)
Lemma collection_tabs_fresh (c : collection) (w : widgets) (m : Z) (keys : registry) :
  (forall k, In k (own_keys (name c)) -> taken keys k = false) ->
  collection_tabs json_loads c w m keys =
  ((tabs json_loads c w m, Ok tt), (own_keys (name c) ++ keys)%list).
Proof.
  intros F. unfold collection_tabs.
  assert (G : forall k, In k (own_keys (name c)) -> ~ In k keys).
  { intros k Hk Hin. apply taken_In in Hin. rewrite (F k Hk) in Hin. discriminate. }
  unfold own_keys in G. cbn [In] in G.
  rewrite rbind_emit.
  do 5 (rewrite rbind_widget;
        match goal with
        | |- context [taken ?L ?k] =>
            replace (taken L k) with false
              by (symmetry; apply not_taken; cbn [In]; intros H;
                  repeat (destruct H as [H|H];
                          [cbn [append] in H;
                           first [discriminate H
                                 | exfalso; apply (doc_prefix_ne (name c));
                                   cbn [append]; congruence]|]);
                  revert H; apply G; auto 12)
        end).
  rewrite rbind_emit.
  do 3 (rewrite rbind_widget;
        match goal with
        | |- context [taken ?L ?k] =>
            replace (taken L k) with false
              by (symmetry; apply not_taken; cbn [In]; intros H;
                  repeat (destruct H as [H|H];
                          [cbn [append] in H; discriminate H|]);
                  revert H; apply G; auto 12)
        end).
  rewrite tabs_run. reflexivity.
Qed.

(** The tabs write neither stop report. *)
Lemma stop_reports_tabs (c : collection) (w : widgets) (m : Z) :
  filter is_stop_report (tabs json_loads c w m) = [].
Proof.
  unfold tabs. rewrite !filter_app. cbn [filter is_stop_report String.eqb Ascii.eqb Bool.eqb app].
  assert (B : filter is_stop_report
                (if browse_btn w then trace (browse_tab c w) else []) = []).
  { destruct (browse_btn w); [|reflexivity].
    rewrite browse_tab_eq. cbn [trace fst filter is_stop_report].
    destruct (get_page c _ _) as [page|e]; [|reflexivity].
    unfold browse_shown. destruct (truthy _); [|reflexivity].
    destruct (DataFrame _); reflexivity. }
  assert (Q : filter is_stop_report
                (if (query_text w =? "")%string then []
                 else trace (query_tab json_loads c w m)) = []).
  { destruct (query_text w =? "")%string; [reflexivity|].
    assert (W : forall text warning,
               filter is_stop_report (parse_warnings json_loads text warning) = []
               \/ exists s, parse_warnings json_loads text warning = [st_warning s]
                             /\ warning = s).
    { intros text warning. unfold parse_warnings.
      destruct (text =? "")%string; [now left|].
      destruct (json_loads text) as [v|[]]; try (now left). right. now eexists. }
    rewrite query_tab_eq. cbn [trace fst]. rewrite filter_app.
    destruct (W (where_filter w)
                "Invalid JSON format in metadata filter. Ignoring filter.")
      as [->|[s1 [-> <-]]];
      (destruct (parse_crash json_loads (where_filter w)); [reflexivity|]);
      rewrite ?filter_app;
      (destruct (W (where_document_filter w)
                   "Invalid JSON format in document filter. Ignoring filter.")
         as [->|[s2 [-> <-]]]);
      (destruct (parse_crash json_loads (where_document_filter w)); [reflexivity|]);
      unfold answered; cbn [filter is_stop_report app];
      (destruct (query c _) as [r|e]; [|reflexivity]);
      unfold query_shown, stats_of; cbn [filter is_stop_report];
      (destruct (truthy _); [|reflexivity]);
      (destruct (DataFrame _); [|reflexivity]); cbn [filter is_stop_report];
      (destruct (include_distances w && dict_mem _ _); [|reflexivity]);
      destruct (dict_get _ _) as [[| | | |ds]|]; reflexivity. }
  now rewrite B, Q.
Qed.

(** Whatever keys are taken, what the tabs write is the beginning of what
    they write when none of theirs is. *)
Lemma collection_tabs_trace (c : collection) (w : widgets) (m : Z) (keys : registry) :
  exists tr',
    tabs json_loads c w m
    = (trace (fst (collection_tabs json_loads c w m keys)) ++ tr')%list.
Proof.
  unfold collection_tabs, tabs. rewrite rbind_emit.
  do 5 (rewrite rbind_widget; destruct (taken _ _);
        [eexists; cbn [trace fst app]; reflexivity|]).
  rewrite rbind_emit.
  do 3 (rewrite rbind_widget; destruct (taken _ _);
        [eexists; cbn [trace fst app]; reflexivity|]).
  rewrite tabs_run. exists []. cbn [trace fst app]. now rewrite app_nil_r.
Qed.


(** Lines 60-228 by the maximum: the empty report and nothing more, or the
    table followed by the tabs. *)
Lemma show_collection_eq (c : collection) (w : widgets) (data : GetResult.t)
    (keys : registry) :
  show_collection json_loads c w data keys =
  if max_length (lengths_of data) =? 0
  then (([lengths_line data; empty_report], Ok tt), keys)
  else match collection_tabs json_loads c w (max_length (lengths_of data)) keys with
       | ((tr, r), keys') =>
           ((lengths_line data
             :: st_dataframe (mk_dataframe
                                (df_data_of data (max_length (lengths_of data)))
                                (max_length (lengths_of data)))
             :: tr, r), keys')
       end.
Proof.
  unfold show_collection. cbv zeta. rewrite rbind_emit.
  unfold rbind at 1. unfold rlift at 1. unfold lift.
  destruct (Z.eqb_spec (max_length (lengths_of data)) 0) as [E|E].
  - rewrite (reconcile_zero data E). reflexivity.
  - pose proof (max_length_nonneg data).
    rewrite reconcile_positive by lia. rewrite rbind_emit.
    destruct (collection_tabs _ _ _ _ _) as [[tr r] keys']. reflexivity.
Qed.

(** The body of a collection whose [ids] is a list: the heading and the
    count, then lines 60-228. *)
Lemma collection_body_listed (c : collection) (w : widgets)
    (data : GetResult.t) (l : list string) (keys : registry) :
  get c = Ok data -> GetResult.ids data = Some l ->
  collection_body json_loads c w keys =
  match show_collection json_loads c w data keys with
  | ((tr, r), keys') =>
      ((st_markdown ("### Collection: **" ++ name c ++ "**")
        :: st_markdown ("**Count:** " ++ str_int (len l) ++ " items")
        :: tr, r), keys')
  end.
Proof.
  intros Hg Hi. unfold collection_body.
  unfold rbind at 1. unfold rlift at 1. unfold lift. rewrite Hg.
  cbv zeta. rewrite rbind_emit.
  unfold rbind at 1. unfold rlift at 1. unfold lift. rewrite Hi. cbn [py_len].
  rewrite rbind_emit.
  destruct (show_collection _ _ _ _ _) as [[tr r] keys']. reflexivity.
Qed.

(** A collection whose [ids] is a list and none of whose keys is taken: the
    count line passes, the lengths are written, and the rest follows the
    maximum.  Nothing is raised. *)
Lemma collection_body_eq (c : collection) (w : widgets)
    (data : GetResult.t) (l : list string) (keys : registry) :
  get c = Ok data -> GetResult.ids data = Some l ->
  (forall k, In k (own_keys (name c)) -> taken keys k = false) ->
  fst (collection_body json_loads c w keys) =
  ((heading c data (len l) ++ after_lengths json_loads c w data)%list, Ok tt).
Proof.
  intros Hg Hi F. rewrite (collection_body_listed c w data l keys Hg Hi).
  rewrite show_collection_eq. unfold after_lengths, heading. cbv zeta.
  destruct (max_length (lengths_of data) =? 0); [reflexivity|].
  now rewrite collection_tabs_fresh.
Qed.

Lemma process_collection_eq (c : collection) (w : widgets)
    (data : GetResult.t) (l : list string) :
  get c = Ok data -> GetResult.ids data = Some l ->
  process_collection json_loads c w =
  ((heading c data (len l) ++ after_lengths json_loads c w data)%list, Ok tt).
Proof.
  intros Hg Hi. unfold process_collection, process_collection_from, rtry.
  pose proof (collection_body_eq c w data l [] Hg Hi (fun _ _ => eq_refl)) as E.
  destruct (collection_body json_loads c w []) as [[tr r] keys'].
  cbn [fst] in E. injection E as -> ->. reflexivity.
Qed.

(** The run of one collection, by what the fetch returns: the error report
    when it raises or returns no [ids], and otherwise the heading followed by
    what the lengths lead to.  Nothing is raised out of it. *)
Lemma process_collection_run (c : collection) (w : widgets) :
  process_collection json_loads c w =
  (match get c with
   | Raise e =>
       [st_error ("Error processing collection '" ++ name c ++ "': " ++ str_exn e)]
   | Ok data =>
       match GetResult.ids data with
       | None =>
           [st_markdown ("### Collection: **" ++ name c ++ "**");
            st_error ("Error processing collection '" ++ name c
                      ++ "': object of type 'NoneType' has no len()")]
       | Some l => (heading c data (len l) ++ after_lengths json_loads c w data)%list
       end
   end, Ok tt).
Proof.
  destruct (get c) as [data|e] eqn:Hg.
  - destruct (GetResult.ids data) as [l|] eqn:Hi.
    + now apply process_collection_eq.
    + unfold process_collection, process_collection_from, rtry, collection_body.
      unfold rbind at 1. unfold rlift at 1. unfold lift. rewrite Hg.
      cbv zeta. rewrite rbind_emit.
      unfold rbind at 1. unfold rlift at 1. unfold lift. rewrite Hi. reflexivity.
  - unfold process_collection, process_collection_from, rtry, collection_body.
    unfold rbind at 1. unfold rlift at 1. unfold lift. rewrite Hg. reflexivity.
Qed.

(** One turn of the loop raises nothing, whatever keys are taken. *)
Lemma process_collection_from_never_raises (c : collection) (w : widgets)
    (keys : registry) :
  snd (fst (process_collection_from json_loads c w keys)) = Ok tt.
Proof.
  unfold process_collection_from, rtry.
  destruct (collection_body json_loads c w keys) as [[tr [[]|e]] keys']; reflexivity.
Qed.

(** One turn of the loop when none of the collection's keys is taken: the
    run of the collection, and its keys are registered when its tabs are
    shown. *)
Lemma process_collection_from_eq (c : collection) (w : widgets) (keys : registry) :
  (forall k, In k (own_keys (name c)) -> taken keys k = false) ->
  process_collection_from json_loads c w keys =
  (process_collection json_loads c w,
   match get c with
   | Ok data =>
       match GetResult.ids data with
       | Some _ =>
           if max_length (lengths_of data) =? 0 then keys
           else (own_keys (name c) ++ keys)%list
       | None => keys
       end
   | Raise _ => keys
   end).
Proof.
  intros F. rewrite process_collection_run.
  unfold process_collection_from, rtry, collection_body.
  unfold rbind at 1. unfold rlift at 1. unfold lift.
  destruct (get c) as [data|e] eqn:Hg; [|reflexivity].
  cbv zeta. rewrite rbind_emit.
  unfold rbind at 1. unfold rlift at 1. unfold lift.
  destruct (GetResult.ids data) as [l|] eqn:Hi; [|reflexivity].
  cbn [py_len]. rewrite rbind_emit, show_collection_eq.
  unfold heading, after_lengths. cbv zeta.
  destruct (max_length (lengths_of data) =? 0); [reflexivity|].
  now rewrite collection_tabs_fresh by exact F.
Qed.

Lemma process_collection_from_fresh (c : collection) (w : widgets) (keys : registry) :
  (forall k, In k (own_keys (name c)) -> taken keys k = false) ->
  fst (process_collection_from json_loads c w keys) = process_collection json_loads c w
  /\ (forall k, In k (snd (process_collection_from json_loads c w keys)) ->
                In k (own_keys (name c)) \/ In k keys).
Proof.
  intros F. rewrite (process_collection_from_eq c w keys F). cbn [fst snd].
  split; [reflexivity|]. intros k.
  destruct (get c) as [data|e]; [|now right].
  destruct (GetResult.ids data); [|now right].
  destruct (_ =? 0); [now right|]. apply in_app_or.
Qed.

Lemma query_calls_browse_tab (c : collection) (w : widgets) :
  query_calls (trace (browse_tab c w)) = [].
Proof.
  rewrite browse_tab_eq. cbn [trace fst query_calls].
  destruct (get_page c _ _) as [page|e]; [|reflexivity].
  unfold browse_shown. cbn [query_calls].
  destruct (truthy _); [|reflexivity]. destruct (DataFrame _); reflexivity.
Qed.

(** The calls of [collection.query] made for one collection: one when the
    collection was fetched, its [ids] is a list, the maximum is positive,
    the search text is not empty and no filter crashes the decoder; none
    otherwise. *)
Lemma process_collection_query_calls (c : collection) (w : widgets) :
  query_calls (trace (process_collection json_loads c w)) =
  match get c with
  | Ok data =>
      match GetResult.ids data with
      | Some _ =>
          if (max_length (lengths_of data) =? 0) || (query_text w =? "")%string
          then []
          else match filters_crash json_loads w with
               | Some _ => []
               | None => [query_params_of json_loads w (max_length (lengths_of data))]
               end
      | None => []
      end
  | Raise _ => []
  end.
Proof.
  rewrite process_collection_run. cbn [trace fst].
  destruct (get c) as [data|e]; [|reflexivity].
  destruct (GetResult.ids data) as [l|]; [|reflexivity].
  rewrite query_calls_app. cbn [heading query_calls app].
  unfold after_lengths. cbv zeta.
  destruct (max_length (lengths_of data) =? 0); [reflexivity|].
  cbn [query_calls orb].
  unfold tabs. rewrite !query_calls_app. cbn [query_calls app].
  replace (query_calls (if browse_btn w then trace (browse_tab c w) else []))
    with (@nil QueryParams.t)
    by (destruct (browse_btn w); [now rewrite query_calls_browse_tab|reflexivity]).
  destruct (query_text w =? "")%string; [reflexivity|].
  cbn [app]. apply query_tab_calls.
Qed.

(** A store with no collection: the listing says so and no collection is
    processed. *)
Lemma display_collections_none (session : string -> widgets) :
  display_collections json_loads (mk_client (Ok [])) session =
  ([print_ "Found 0 collections"; st_header "Collections";
    st_info "No collections found in this ChromaDB instance"], Ok tt).
Proof. reflexivity. Qed.

(** The listing goes on after a collection whose body raises: each
    collection is processed under its own handler. *)
Lemma for_each_never_raises (cs : list collection) (session : string -> widgets)
    (keys : registry) :
  snd (fst (for_each json_loads cs session keys)) = Ok tt.
Proof.
  revert keys. induction cs as [|c cs IH]; intros keys; [reflexivity|].
  cbn [for_each]. unfold rbind.
  pose proof (process_collection_from_never_raises c (session (name c)) keys) as P.
  destruct (process_collection_from json_loads c (session (name c)) keys)
    as [[tr r] keys'].
  cbn [fst snd] in P. subst r. specialize (IH keys').
  destruct (for_each json_loads cs session keys') as [[tr' r'] keys''].
  exact IH.
Qed.

(** The loop over collections whose names are compatible pairwise, and
    compatible with what is registered: every collection runs as if it were
    alone. *)
Lemma for_each_fresh (cs : list collection) (session : string -> widgets)
    (keys : registry) :
  ForallOrdPairs compatible (map name cs) ->
  (forall c k, In c cs -> In k (own_keys (name c)) -> taken keys k = false) ->
  fst (for_each json_loads cs session keys) =
  (flat_map (fun c => trace (process_collection json_loads c (session (name c)))) cs,
   Ok tt).
Proof.
  revert keys. induction cs as [|c cs IH]; intros keys Hc F; [reflexivity|].
  cbn [for_each flat_map]. unfold rbind.
  destruct (process_collection_from_fresh c (session (name c)) keys) as [E G].
  { intros k Hk. apply (F c k); [now left | exact Hk]. }
  destruct (process_collection_from json_loads c (session (name c)) keys)
    as [[tr r] keys'].
  cbn [fst snd] in E, G. rewrite <- E. cbn [trace fst].
  pose proof (f_equal snd E) as R. rewrite process_collection_run in R.
  cbn [snd] in R. subst r.
  cbn [map] in Hc. inversion Hc as [|n ns Hn Hrest]; subst.
  specialize (IH keys' Hrest).
  destruct (for_each json_loads cs session keys') as [[tr' r'] keys''].
  cbn [fst] in IH.
  assert (F' : forall c' k, In c' cs -> In k (own_keys (name c')) ->
                            taken keys' k = false).
  { intros c' k Hc' Hk. apply not_taken. intros Hin.
    destruct (G k Hin) as [Hown|Hold].
    - rewrite Forall_forall in Hn.
      apply (own_keys_disjoint (name c) (name c') k); [|exact Hown | exact Hk].
      apply Hn. now apply in_map.
    - apply taken_In in Hold.
      rewrite (F c' k) in Hold; [discriminate | now right | exact Hk]. }
  injection (IH F') as -> ->. reflexivity.
Qed.

End CollectionFacts.

Lemma dict_get_distances (w : widgets) (r : QueryResult.t) :
  dict_get (result_data_of w r) "distances" =
  if include_distances w
  then match first_batch (QueryResult.distances r) with
       | Some (d :: ds) => Some (FloatCol (d :: ds))
       | Some [] | None => None
       end
  else None.
Proof.
  rewrite result_data_of_columns.
  destruct (first_batch (QueryResult.ids r)) as [[|? ?]|],
           (first_batch (QueryResult.documents r)) as [[|? ?]|],
           (first_batch (QueryResult.metadatas r)) as [[|? ?]|],
           (first_batch (QueryResult.distances r)) as [[|? ?]|],
           (include_distances w); reflexivity.
Qed.

(** ** Floats *)









(** * The statements of the specification *)

(** ** The reconciler *)

(** C1.  The reconciliation of a collection fails when [ids] is absent.
    The count line (line 58) takes [len(ids)] with no guard, while lines 62
    and 78 guard the same [ids]: it raises before the lengths are computed,
    and the collection ends in the error report of line 231, with no table
    and in neither stop state.  From line 60 on the same data is handled:
    lines 61-90 build the table of the documents, and nothing is raised. *)
Theorem absent_ids_raise_at_count_line :
  get orphans_collection = Ok documents_without_ids
  /\ GetResult.ids documents_without_ids = None
  /\ fst (collection_body sample_loads orphans_collection browse_10_from_0 [])
     = ([st_markdown "### Collection: **orphans**"],
        Raise (TypeError "object of type 'NoneType' has no len()"))
  /\ process_collection sample_loads orphans_collection browse_10_from_0
     = ([st_markdown "### Collection: **orphans**";
         st_error "Error processing collection 'orphans': object of type 'NoneType' has no len()"],
        Ok tt)
  /\ reconcile documents_without_ids
     = Ok (Table (mk_dataframe [("documents", DocumentCol [Some "one"; Some "two"])] 2))
  /\ fst (show_collection sample_loads orphans_collection browse_10_from_0
            documents_without_ids [])
     = ([st_write "Data lengths: {'ids': 0, 'embeddings': 0, 'metadatas': 0, 'documents': 2}";
         st_dataframe
           (mk_dataframe [("documents", DocumentCol [Some "one"; Some "two"])] 2);
         st_markdown "#### Search Collection";
         st_markdown "#### Browse Collection";
         call_get 10 0;
         st_markdown "##### Browse Results:";
         st_info "No items found in the specified range"],
        Ok tt).
Proof. repeat split. Qed.

(** C2.  With a positive maximum the table holds a field exactly when the
    field's length is the maximum; a column of the table is the fetched list
    itself (for the embeddings, the list of their lengths), so no field is
    padded or cut, and the table has [max_length] rows and no other column.
    With three ids, three documents, two metadatas and no embeddings the
    table has the columns ids and documents, and three rows. *)
Theorem table_keeps_fields_of_max_length :
  (forall data : GetResult.t,
      0 < max_length (lengths_of data) ->
      exists df,
        reconcile data = Ok (Table df)
        /\ nrows df = max_length (lengths_of data)
        /\ (forall f, dict_mem (columns df) (column_name f) = true
                      <-> lengths_get (lengths_of data) f
                          = max_length (lengths_of data))
        /\ (forall f c, dict_get (columns df) (column_name f) = Some c ->
                        column_of data f = Some c
                        /\ col_len c = lengths_get (lengths_of data) f)
        /\ (forall k, In k (dict_keys (columns df)) -> exists f, k = column_name f))
  /\ (forall (i1 i2 i3 : string) (d1 d2 d3 : option string)
             (m1 m2 : option metadata),
         reconcile (GetResult.mk (Some [i1; i2; i3]) None (Some [m1; m2])
                                 (Some [d1; d2; d3]))
         = Ok (Table (mk_dataframe [("ids", IdCol [i1; i2; i3]);
                                    ("documents", DocumentCol [d1; d2; d3])] 3))).
Proof.
  split; [|reflexivity].
  intros data Hm. eexists. split; [now apply reconcile_positive|].
  cbn [nrows columns]. split; [reflexivity|]. split; [|split].
  - intros f. rewrite dict_mem_df_data. now apply kept_iff.
  - intros f c. rewrite dict_get_df_data.
    destruct (kept data _ f); [|discriminate].
    intros C. split; [exact C | now apply column_of_len].
  - apply df_data_keys.
Qed.

Lemma table_keeps_fields_of_max_length_witness :
  0 < max_length (lengths_of (GetResult.mk (Some ["a"; "b"; "c"]) None
                                (Some [None; None])
                                (Some [Some "x"; Some "y"; None])))
  /\ exists df,
       reconcile (GetResult.mk (Some ["a"; "b"; "c"]) None (Some [None; None])
                    (Some [Some "x"; Some "y"; None])) = Ok (Table df)
       /\ nrows df = 3.
Proof.
  split; [reflexivity|].
  destruct (proj1 table_keeps_fields_of_max_length
              (GetResult.mk (Some ["a"; "b"; "c"]) None (Some [None; None])
                 (Some [Some "x"; Some "y"; None])) eq_refl)
    as [df [H1 [H2 _]]].
  exists df. split; [exact H1 | exact H2].
Defined.

(** C3.  When the four arrays all have the same positive length [N], the
    table has the four columns ids, documents, metadatas and
    embeddings_count, the last one holding for each item the length of its
    embedding and not the vector, and the table has [N] rows. *)
Theorem equal_lengths_give_four_columns :
  forall (i : list string) (e : list (option (list pyfloat)))
         (md : list (option metadata)) (d : list (option string)) (N : Z),
    0 < N -> len i = N -> len e = N -> len md = N -> len d = N ->
    reconcile (GetResult.mk (Some i) (Some e) (Some md) (Some d))
    = Ok (Table (mk_dataframe
                   [("ids", IdCol i); ("documents", DocumentCol d);
                    ("metadatas", MetadataCol md);
                    ("embeddings_count", IntCol (embeddings_count e))] N))
    /\ len (embeddings_count e) = N
    /\ (forall k v, nth_error e k = Some (Some v) ->
                    nth_error (embeddings_count e) k = Some (len v)).
Proof.
  intros i e md d N HN Hi He Hmd Hd.
  set (data := GetResult.mk (Some i) (Some e) (Some md) (Some d)).
  assert (HL : forall f, lengths_get (lengths_of data) f = N).
  { intros f. rewrite lengths_get_of.
    destruct f; rewrite len_or_0_eq; subst data;
      cbn [GetResult.ids GetResult.embeddings GetResult.metadatas
           GetResult.documents]; assumption. }
  assert (Hmax : max_length (lengths_of data) = N) by now apply max_length_all_equal.
  split; [|split].
  - rewrite reconcile_positive by lia. rewrite Hmax. do 3 f_equal.
    rewrite df_data_of_entries. unfold entry.
    assert (K : forall f, kept data N f = true).
    { intros f. apply kept_iff; [exact HN | apply HL]. }
    rewrite !K. reflexivity.
  - now rewrite len_embeddings_count.
  - intros k v H. rewrite (embeddings_count_nth _ _ _ H).
    destruct v; reflexivity.
Qed.

Lemma equal_lengths_give_four_columns_witness :
  reconcile (GetResult.mk (Some ["a"; "b"])
               (Some [Some [FFinite 1 0; FFinite 3 (-1)]; None])
               (Some [None; Some [("topic", JStr "x")]])
               (Some [Some "first"; Some "second"]))
  = Ok (Table (mk_dataframe
                 [("ids", IdCol ["a"; "b"]);
                  ("documents", DocumentCol [Some "first"; Some "second"]);
                  ("metadatas", MetadataCol [None; Some [("topic", JStr "x")]]);
                  ("embeddings_count", IntCol [2; 0])] 2)).
Proof.
  exact (proj1 (equal_lengths_give_four_columns
                  ["a"; "b"] [Some [FFinite 1 0; FFinite 3 (-1)]; None]
                  [None; Some [("topic", JStr "x")]]
                  [Some "first"; Some "second"] 2
                  eq_refl eq_refl eq_refl eq_refl eq_refl)).
Defined.

(** C4.  What lines 60-228 report, by the maximum of the four lengths, for
    every fetched data and whatever keys are taken.  With a zero maximum the
    lengths line is followed by the report that the collection is empty and
    by nothing else: no table, no widget.  With a non-zero maximum at least
    one field passes the length filter, the table of the fields that pass
    follows the lengths line, and neither report is written.  So no field
    passes only when the maximum is zero, where the empty report is the one
    written, and the report of inconsistent lengths (line 228) is written
    for no data at all: in particular never with a zero maximum, and never
    together with the other one, from which it differs. *)
Theorem stop_reports_follow_the_maximum :
  forall (json_loads : string -> result json) (c : collection) (w : widgets)
         (data : GetResult.t) (keys : registry),
    (max_length (lengths_of data) = 0 ->
     show_collection json_loads c w data keys
     = (([lengths_line data; empty_report], Ok tt), keys))
    /\ (max_length (lengths_of data) <> 0 ->
        dict_truthy (df_data_of data (max_length (lengths_of data))) = true
        /\ (exists rest,
               trace (fst (show_collection json_loads c w data keys))
               = lengths_line data
                 :: st_dataframe
                      (mk_dataframe (df_data_of data (max_length (lengths_of data)))
                                    (max_length (lengths_of data)))
                 :: rest)
        /\ ~ In empty_report (trace (fst (show_collection json_loads c w data keys))))
    /\ ~ In inconsistent_report
            (trace (fst (show_collection json_loads c w data keys)))
    /\ (dict_truthy (df_data_of data (max_length (lengths_of data))) = false
        <-> max_length (lengths_of data) = 0)
    /\ empty_report <> inconsistent_report.
Proof.
  intros json_loads c w data keys.
  pose proof (max_length_nonneg data) as H0.
  assert (N : max_length (lengths_of data) <> 0 ->
              filter is_stop_report
                (trace (fst (show_collection json_loads c w data keys))) = []).
  { intros Hm. rewrite show_collection_eq.
    destruct (Z.eqb_spec (max_length (lengths_of data)) 0) as [E|_]; [contradiction|].
    destruct (collection_tabs_trace json_loads c w (max_length (lengths_of data)) keys)
      as [tr' P].
    pose proof (stop_reports_tabs json_loads c w (max_length (lengths_of data))) as Q.
    rewrite P, filter_app in Q. apply app_eq_nil in Q. destruct Q as [Q _].
    destruct (collection_tabs _ _ _ _ _) as [[tr r] keys'].
    cbn [trace fst] in *. exact Q. }
  assert (M : forall ev, is_stop_report ev = true ->
                         max_length (lengths_of data) <> 0 ->
                         ~ In ev (trace (fst (show_collection json_loads c w data keys)))).
  { intros ev Hev Hm Hin.
    assert (Hf : In ev (filter is_stop_report
                          (trace (fst (show_collection json_loads c w data keys)))))
      by (apply filter_In; split; assumption).
    rewrite (N Hm) in Hf. destruct Hf. }
  split; [|split; [|split; [|split]]].
  - intros E. rewrite show_collection_eq, E. reflexivity.
  - intros Hm. split; [apply df_data_truthy; lia|]. split.
    + rewrite show_collection_eq.
      destruct (Z.eqb_spec (max_length (lengths_of data)) 0) as [E|_]; [contradiction|].
      destruct (collection_tabs _ _ _ _ _) as [[tr r] keys']. now exists tr.
    + now apply M.
  - destruct (Z.eq_dec (max_length (lengths_of data)) 0) as [E|E].
    + rewrite show_collection_eq, E. cbn. intros [H|[H|[]]]; discriminate.
    + now apply M.
  - split.
    + intros Hd. destruct (Z.eq_dec (max_length (lengths_of data)) 0) as [E|E];
        [exact E|]. rewrite df_data_truthy in Hd by lia. discriminate.
    + intros E. rewrite E, df_data_zero. reflexivity.
  - discriminate.
Qed.

Lemma stop_reports_follow_the_maximum_witness :
  max_length (lengths_of nothing) = 0
  /\ show_collection sample_loads empty_collection untouched_widgets nothing []
     = (([st_write "Data lengths: {'ids': 0, 'embeddings': 0, 'metadatas': 0, 'documents': 0}";
          st_info "This collection is empty"], Ok tt), [])
  /\ max_length (lengths_of one_id_three_documents) <> 0
  /\ (exists rest,
         trace (fst (show_collection sample_loads uneven_collection untouched_widgets
                       one_id_three_documents []))
         = st_write "Data lengths: {'ids': 1, 'embeddings': 0, 'metadatas': 0, 'documents': 3}"
           :: st_dataframe
                (mk_dataframe
                   [("documents", DocumentCol [Some "one"; Some "two"; Some "three"])] 3)
           :: rest).
Proof.
  split; [reflexivity|]. split.
  - exact (proj1 (stop_reports_follow_the_maximum sample_loads empty_collection
                    untouched_widgets nothing []) eq_refl).
  - split; [discriminate|].
    exact (proj1 (proj2 (proj1 (proj2 (stop_reports_follow_the_maximum sample_loads
                                         uneven_collection untouched_widgets
                                         one_id_three_documents []))
                           ltac:(discriminate)))).
Defined.

(** C10.  When the table has the embeddings_count column, that column has
    one entry per fetched embedding: the embedding's length, and 0 for an
    embedding that is absent or empty; every entry is a non-negative
    integer. *)
Theorem embeddings_count_column :
  forall (data : GetResult.t) (df : dataframe) (c : column),
    reconcile data = Ok (Table df) ->
    dict_get (columns df) "embeddings_count" = Some c ->
    exists embs counts,
      GetResult.embeddings data = Some embs
      /\ c = IntCol counts
      /\ len counts = len embs
      /\ (forall k emb,
             nth_error embs k = Some emb ->
             nth_error counts k
             = Some (match emb with
                     | Some (x :: v) => len (x :: v)
                     | Some [] | None => 0
                     end))
      /\ Forall (fun n => 0 <= n) counts.
Proof.
  intros data df c HR HC.
  destruct (reconcile_total data) as [[HE _]|[df' [_ Hm]]];
    [rewrite HE in HR; discriminate|].
  rewrite (reconcile_positive data Hm) in HR. injection HR as <-.
  cbn [columns] in HC. change "embeddings_count" with (column_name Embeddings) in HC.
  rewrite dict_get_df_data in HC.
  destruct (kept data _ Embeddings); [|discriminate].
  cbn [column_of] in HC.
  destruct (GetResult.embeddings data) as [embs|]; [|discriminate].
  injection HC as <-. exists embs, (embeddings_count embs).
  repeat split.
  - apply len_embeddings_count.
  - intros k emb. apply embeddings_count_nth.
  - apply embeddings_count_nonneg.
Qed.

Lemma embeddings_count_column_witness :
  exists embs counts,
    Some [Some [FFinite 1 0; FFinite 1 1; FFinite 3 0]; None; Some []] = Some embs
    /\ IntCol [3; 0; 0] = IntCol counts
    /\ len counts = len embs
    /\ (forall k emb,
           nth_error embs k = Some emb ->
           nth_error counts k
           = Some (match emb with
                   | Some (x :: v) => len (x :: v)
                   | Some [] | None => 0
                   end))
    /\ Forall (fun n => 0 <= n) counts.
Proof.
  exact (embeddings_count_column
           (GetResult.mk (Some ["a"; "b"; "c"])
              (Some [Some [FFinite 1 0; FFinite 1 1; FFinite 3 0]; None; Some []])
              None None)
           (mk_dataframe [("ids", IdCol ["a"; "b"; "c"]);
                          ("embeddings_count", IntCol [3; 0; 0])] 3)
           (IntCol [3; 0; 0]) eq_refl eq_refl).
Defined.

(** ** The query tab *)











(** ** The browse tab *)

(** C9, as the code has it.  After a paged fetch that returns a page: when
    the ids are not empty and every other non-empty field of the page has as
    many entries as the ids, the tab shows a table whose columns are the
    non-empty ones among ids, documents and metadatas (embeddings never), with
    one row per id, and writes the range from the offset to the offset plus
    the number of ids; when the ids are empty or absent it reports that no
    items were found in the range.  Both end the tab normally. *)
Theorem browse_shows_page_and_range :
  forall (c : collection) (w : widgets) (page : GetResult.t),
    get_page c (browse_limit w) (browse_offset w) = Ok page ->
    (truthy (GetResult.ids page) = true ->
     (truthy (GetResult.documents page) = true ->
      len_or_0 (GetResult.documents page) = len_or_0 (GetResult.ids page)) ->
     (truthy (GetResult.metadatas page) = true ->
      len_or_0 (GetResult.metadatas page) = len_or_0 (GetResult.ids page)) ->
     browse_tab c w =
     ([call_get (browse_limit w) (browse_offset w);
       st_markdown "##### Browse Results:";
       st_dataframe
         (mk_dataframe
            (column_if_truthy "ids" (GetResult.ids page) IdCol
             ++ column_if_truthy "documents" (GetResult.documents page) DocumentCol
             ++ column_if_truthy "metadatas" (GetResult.metadatas page) MetadataCol)%list
            (len_or_0 (GetResult.ids page)));
       st_write ("Showing items " ++ str_int (browse_offset w) ++ " to "
                 ++ str_int (browse_offset w + len_or_0 (GetResult.ids page)))],
      Ok tt))
    /\ (truthy (GetResult.ids page) = false ->
        browse_tab c w =
        ([call_get (browse_limit w) (browse_offset w);
          st_markdown "##### Browse Results:";
          st_info "No items found in the specified range"],
         Ok tt)).
Proof.
  intros c w page Hp. rewrite browse_tab_eq, Hp. unfold browse_shown. split.
  - intros T Hd Hm. rewrite T.
    rewrite (DataFrame_uniform (browse_data_of page) (len_or_0 (GetResult.ids page))).
    + rewrite browse_data_of_columns. reflexivity.
    + now apply browse_data_truthy.
    + rewrite browse_data_of_columns.
      repeat (apply Forall_app; split); apply column_if_truthy_len;
        try (intros; reflexivity); assumption.
  - intros T. rewrite T. reflexivity.
Qed.

Lemma browse_shows_page_and_range_witness :
  browse_tab four_items_collection browse_10_from_0 =
  ([call_get 10 0;
    st_markdown "##### Browse Results:";
    st_dataframe
      (mk_dataframe
         [("ids", IdCol ["id1"; "id2"; "id3"; "id4"]);
          ("documents", DocumentCol [Some "one"; Some "two"; Some "three"; Some "four"]);
          ("metadatas", MetadataCol [None; None; None; None])] 4);
    st_write "Showing items 0 to 4"],
   Ok tt).
Proof.
  exact (proj1 (browse_shows_page_and_range four_items_collection browse_10_from_0
                  four_items eq_refl)
           eq_refl (fun _ => eq_refl) (fun _ => eq_refl)).
Defined.

(** C9, as stated, fails on a page whose fields differ in length: the ids are
    not empty, yet [pd.DataFrame] raises, no table is shown and no range is
    written; the tab reports the failure instead. *)
Lemma browse_ragged_page_fails :
  get_page ragged_collection 10 0 = Ok ragged_page
  /\ truthy (GetResult.ids ragged_page) = true
  /\ browse_tab ragged_collection browse_10_from_0 =
     ([call_get 10 0;
       st_markdown "##### Browse Results:";
       st_error "Browse failed: All arrays must be of the same length"],
      Ok tt)
  /\ dataframes (trace (browse_tab ragged_collection browse_10_from_0)) = [].
Proof. repeat split. Qed.

(** * Further properties of the viewer *)

(** ** Reading traces by parts *)

Lemma warnings_app (tr1 tr2 : list event) :
  warnings (tr1 ++ tr2) = (warnings tr1 ++ warnings tr2)%list.
Proof.
  induction tr1 as [|ev tr1 IH]; [reflexivity|].
  destruct ev; cbn; rewrite IH; reflexivity.
Qed.

Lemma page_calls_app (tr1 tr2 : list event) :
  page_calls (tr1 ++ tr2) = (page_calls tr1 ++ page_calls tr2)%list.
Proof.
  induction tr1 as [|ev tr1 IH]; [reflexivity|].
  destruct ev; cbn; rewrite IH; reflexivity.
Qed.

Lemma best_match_lines_app (tr1 tr2 : list event) :
  best_match_lines (tr1 ++ tr2) = (best_match_lines tr1 ++ best_match_lines tr2)%list.
Proof.
  induction tr1 as [|ev tr1 IH]; [reflexivity|].
  destruct ev; cbn; rewrite IH; reflexivity.
Qed.

Lemma average_lines_app (tr1 tr2 : list event) :
  average_lines (tr1 ++ tr2) = (average_lines tr1 ++ average_lines tr2)%list.
Proof.
  induction tr1 as [|ev tr1 IH]; [reflexivity|].
  destruct ev; cbn; rewrite IH; reflexivity.
Qed.

(** What [pd.DataFrame] returns when it returns: the dict itself, every
    column as long as the first one. *)
Lemma DataFrame_ok (d : dict) (df : dataframe) :
  DataFrame d = Ok df ->
  columns df = d
  /\ Forall (fun kc => col_len (snd kc) = nrows df) d
  /\ nrows df = match d with [] => 0 | (_, c) :: _ => col_len c end.
Proof.
  unfold DataFrame. destruct d as [|[k c] rest].
  - intros H. injection H as <-. repeat split. constructor.
  - destruct (forallb _ rest) eqn:F; [|discriminate].
    intros H. injection H as <-. cbn [columns nrows]. repeat split.
    constructor; [reflexivity|]. apply Forall_forall. intros kc Hin.
    rewrite forallb_forall in F. apply Z.eqb_eq. now apply F.
Qed.

Section RunFacts.

Variable json_loads : string -> result json.

(** The listing, by what [list_collections] returns. *)
Lemma display_collections_run (cl : client) (session : string -> widgets) :
  display_collections json_loads cl session =
  match list_collections cl with
  | Ok cs =>
      (print_ ("Found " ++ str_int (len cs) ++ " collections")
       :: st_header "Collections"
       :: match cs with
          | [] => [st_info "No collections found in this ChromaDB instance"]
          | _ :: _ => trace (fst (for_each json_loads cs session []))
          end, Ok tt)
  | Raise e => ([], Raise e)
  end.
Proof.
  unfold display_collections. destruct (list_collections cl) as [cs|e]; [|reflexivity].
  unfold lift, emit. cbn [bind]. destruct cs as [|c cs]; [reflexivity|].
  pose proof (for_each_never_raises json_loads (c :: cs) session []) as P.
  destruct (fst (for_each json_loads (c :: cs) session [])) as [tr r].
  cbn [snd trace fst] in *. now subst r.
Qed.

End RunFacts.

(** ** The listing *)

(** X1.  Once the store has listed its collections, the listing writes their
    number and the header and raises nothing.  When the names of the
    collections are compatible pairwise, so that no two widgets get the same
    key, it then either says that there is no collection, or runs every
    collection in the order listed, each with the widgets kept under its
    name and as if it were alone; a collection whose fetch raises leaves its
    error report and the next ones are still run. *)
Theorem listing_runs_every_collection :
  forall (json_loads : string -> result json) (cl : client)
         (session : string -> widgets) (cs : list collection),
    list_collections cl = Ok cs ->
    snd (display_collections json_loads cl session) = Ok tt
    /\ (exists rest,
           trace (display_collections json_loads cl session)
           = print_ ("Found " ++ str_int (len cs) ++ " collections")
             :: st_header "Collections" :: rest)
    /\ (ForallOrdPairs compatible (map name cs) ->
        display_collections json_loads cl session =
        (print_ ("Found " ++ str_int (len cs) ++ " collections")
         :: st_header "Collections"
         :: match cs with
            | [] => [st_info "No collections found in this ChromaDB instance"]
            | _ :: _ =>
                flat_map (fun c => trace (process_collection json_loads c
                                            (session (name c)))) cs
            end, Ok tt))
    /\ (forall c e, In c cs -> get c = Raise e ->
                    process_collection json_loads c (session (name c)) =
                    ([st_error ("Error processing collection '" ++ name c ++ "': "
                                ++ str_exn e)], Ok tt)).
Proof.
  intros json_loads cl session cs Hl. rewrite display_collections_run, Hl.
  split; [reflexivity|]. split; [eexists; reflexivity|]. split.
  - intros Hc. destruct cs as [|c cs]; [reflexivity|].
    rewrite (for_each_fresh json_loads (c :: cs) session [] Hc); [reflexivity|].
    reflexivity.
  - intros c e _ Hg. now rewrite process_collection_run, Hg.
Qed.

Lemma listing_runs_every_collection_witness :
  ForallOrdPairs compatible (map name [broken_collection; empty_collection])
  /\ display_collections sample_loads
       (mk_client (Ok [broken_collection; empty_collection])) untouched =
     ([print_ "Found 2 collections";
       st_header "Collections";
       st_error "Error processing collection 'broken': collection not found";
       st_markdown "### Collection: **empty**";
       st_markdown "**Count:** 0 items";
       st_write "Data lengths: {'ids': 0, 'embeddings': 0, 'metadatas': 0, 'documents': 0}";
       st_info "This collection is empty"],
      Ok tt).
Proof.
  assert (H : ForallOrdPairs compatible (map name [broken_collection; empty_collection])).
  { repeat constructor; discriminate. }
  split; [exact H|].
  exact (proj1 (proj2 (proj2 (listing_runs_every_collection sample_loads
                                (mk_client (Ok [broken_collection; empty_collection]))
                                untouched [broken_collection; empty_collection]
                                eq_refl))) H).
Defined.

(** Two collections whose names are not compatible: the second one's
    metadata filter asks for the key that the first one's document filter
    holds, and the second collection ends in its error report, after its
    table and without its tabs. *)
Lemma shared_key_stops_the_second_collection :
  name doc_xyz_collection = "doc_" ++ name xyz_collection
  /\ display_collections sample_loads
       (mk_client (Ok [xyz_collection; doc_xyz_collection])) untouched =
     ([print_ "Found 2 collections";
       st_header "Collections";
       st_markdown "### Collection: **xyz**";
       st_markdown "**Count:** 3 items";
       st_write "Data lengths: {'ids': 3, 'embeddings': 0, 'metadatas': 3, 'documents': 3}";
       st_dataframe
         (mk_dataframe
            [("ids", IdCol ["id1"; "id2"; "id3"]);
             ("documents", DocumentCol [Some "one"; Some "two"; Some "three"]);
             ("metadatas", MetadataCol [None; None; None])] 3);
       st_markdown "#### Search Collection";
       st_markdown "#### Browse Collection";
       st_markdown "### Collection: **doc_xyz**";
       st_markdown "**Count:** 3 items";
       st_write "Data lengths: {'ids': 3, 'embeddings': 0, 'metadatas': 3, 'documents': 3}";
       st_dataframe
         (mk_dataframe
            [("ids", IdCol ["id1"; "id2"; "id3"]);
             ("documents", DocumentCol [Some "one"; Some "two"; Some "three"]);
             ("metadatas", MetadataCol [None; None; None])] 3);
       st_markdown "#### Search Collection";
       st_error ("Error processing collection 'doc_xyz': "
                 ++ str_exn (DuplicateWidgetID "where_doc_xyz"))],
      Ok tt).
Proof. split; reflexivity. Qed.



(** ** Warnings, store calls and tables of one collection *)

Section CollectionReadings.

Variable json_loads : string -> result json.

Lemma warnings_parse_warnings (text warning : string) :
  warnings (parse_warnings json_loads text warning) =
  if (text =? "")%string then []
  else match json_loads text with
       | Raise (JSONDecodeError _) => [warning]
       | _ => []
       end.
Proof.
  unfold parse_warnings. destruct (text =? "")%string; [reflexivity|].
  destruct (json_loads text) as [v|[]]; reflexivity.
Qed.

Lemma readings_browse_tab (c : collection) (w : widgets) :
  warnings (trace (browse_tab c w)) = []
  /\ page_calls (trace (browse_tab c w)) = [(browse_limit w, browse_offset w)].
Proof.
  rewrite browse_tab_eq. cbn [trace fst warnings page_calls].
  destruct (get_page c _ _) as [page|e]; [|split; reflexivity].
  unfold browse_shown. cbn [warnings page_calls].
  destruct (truthy _); [|split; reflexivity].
  destruct (DataFrame _); split; reflexivity.
Qed.

Lemma readings_query_shown (w : widgets) (r : QueryResult.t) :
  warnings (query_shown w r) = [] /\ page_calls (query_shown w r) = [].
Proof.
  unfold query_shown, stats_of. cbn [warnings page_calls].
  destruct (truthy _); [|split; reflexivity].
  destruct (DataFrame _); [|split; reflexivity]. cbn [warnings page_calls].
  destruct (include_distances w && dict_mem _ _); [|split; reflexivity].
  destruct (dict_get _ _) as [[| | | |ds]|]; split; reflexivity.
Qed.

Lemma page_calls_parse_warnings (text warning : string) :
  page_calls (parse_warnings json_loads text warning) = [].
Proof.
  unfold parse_warnings. destruct (text =? "")%string; [reflexivity|].
  destruct (json_loads text) as [v|[]]; reflexivity.
Qed.

Lemma readings_query_tab (c : collection) (w : widgets) (m : Z) :
  warnings (trace (query_tab json_loads c w m)) =
  (warnings (parse_warnings json_loads (where_filter w)
               "Invalid JSON format in metadata filter. Ignoring filter.")
   ++ match parse_crash json_loads (where_filter w) with
      | Some _ => []
      | None =>
          warnings (parse_warnings json_loads (where_document_filter w)
                      "Invalid JSON format in document filter. Ignoring filter.")
      end)%list
  /\ page_calls (trace (query_tab json_loads c w m)) = [].
Proof.
  rewrite query_tab_eq. cbn [trace fst].
  rewrite !warnings_app, !page_calls_app, !page_calls_parse_warnings.
  destruct (parse_crash json_loads (where_filter w)); [split; reflexivity|].
  rewrite !warnings_app, !page_calls_app, !page_calls_parse_warnings.
  cbn [app].
  destruct (parse_crash json_loads (where_document_filter w));
    [split; [cbn; now rewrite app_nil_r | reflexivity]|].
  unfold answered. cbn [warnings page_calls app].
  destruct (query c _) as [r|e].
  - destruct (readings_query_shown w r) as [-> ->]. now rewrite app_nil_r.
  - cbn. now rewrite app_nil_r.
Qed.

(** The warnings of the run of one collection: those of the two filters,
    and only when the table is shown and a search text is typed. *)
Lemma process_collection_warnings (c : collection) (w : widgets) :
  warnings (trace (process_collection json_loads c w)) =
  match get c with
  | Ok data =>
      match GetResult.ids data with
      | Some _ =>
          if (max_length (lengths_of data) =? 0) || (query_text w =? "")%string
          then []
          else (warnings (parse_warnings json_loads (where_filter w)
                            "Invalid JSON format in metadata filter. Ignoring filter.")
                ++ match parse_crash json_loads (where_filter w) with
                   | Some _ => []
                   | None =>
                       warnings
                         (parse_warnings json_loads (where_document_filter w)
                            "Invalid JSON format in document filter. Ignoring filter.")
                   end)%list
      | None => []
      end
  | Raise _ => []
  end.
Proof.
  rewrite process_collection_run. cbn [trace fst].
  destruct (get c) as [data|e]; [|reflexivity].
  destruct (GetResult.ids data) as [l|]; [|reflexivity].
  rewrite warnings_app. cbn [heading warnings app].
  unfold after_lengths. cbv zeta.
  destruct (max_length (lengths_of data) =? 0); [reflexivity|].
  cbn [warnings orb]. unfold tabs. rewrite !warnings_app. cbn [warnings app].
  replace (warnings (if browse_btn w then trace (browse_tab c w) else []))
    with (@nil string)
    by (destruct (browse_btn w);
        [now rewrite (proj1 (readings_browse_tab c w)) | reflexivity]).
  destruct (query_text w =? "")%string; [reflexivity|].
  cbn [app]. apply readings_query_tab.
Qed.

End CollectionReadings.

(** X2.  Whatever the store returns and whatever is typed, the only warnings
    the run of a collection writes are the two filter warnings; the warning
    of line 228 about inconsistent data lengths is never written. *)
Theorem only_filter_warnings_are_written :
  forall (json_loads : string -> result json) (c : collection) (w : widgets),
    Forall (fun s =>
              s = "Invalid JSON format in metadata filter. Ignoring filter."
              \/ s = "Invalid JSON format in document filter. Ignoring filter.")
           (warnings (trace (process_collection json_loads c w)))
    /\ Forall (fun s =>
                 s <> "Could not create DataFrame due to inconsistent data lengths")
              (warnings (trace (process_collection json_loads c w))).
Proof.
  intros json_loads c w.
  assert (H : Forall (fun s =>
              s = "Invalid JSON format in metadata filter. Ignoring filter."
              \/ s = "Invalid JSON format in document filter. Ignoring filter.")
           (warnings (trace (process_collection json_loads c w)))).
  { rewrite process_collection_warnings.
    destruct (get c) as [data|e]; [|constructor].
    destruct (GetResult.ids data); [|constructor].
    destruct (_ || _); [constructor|].
    rewrite !warnings_parse_warnings. apply Forall_app. split.
    - destruct (where_filter w =? "")%string; [constructor|].
      destruct (json_loads _) as [v|[]]; repeat constructor.
    - destruct (parse_crash json_loads (where_filter w)); [constructor|].
      destruct (where_document_filter w =? "")%string; [constructor|].
      destruct (json_loads _) as [v|[]]; try constructor;
        [right; reflexivity | constructor]. }
  split; [exact H|].
  eapply Forall_impl; [|exact H]. intros s [->| ->]; discriminate.
Qed.

(** X3.  While the search text is empty the filters are not read: the run of
    a collection writes no warning and makes no query, whatever the two
    filter texts are. *)
Theorem empty_search_text_reads_no_filter :
  forall (json_loads : string -> result json) (c : collection) (w : widgets),
    query_text w = "" ->
    warnings (trace (process_collection json_loads c w)) = []
    /\ query_calls (trace (process_collection json_loads c w)) = [].
Proof.
  intros json_loads c w Hq. split.
  - rewrite process_collection_warnings, Hq.
    destruct (get c) as [data|e]; [|reflexivity].
    destruct (GetResult.ids data); [|reflexivity].
    now rewrite orb_true_r.
  - rewrite process_collection_query_calls, Hq.
    destruct (get c) as [data|e]; [|reflexivity].
    destruct (GetResult.ids data); [|reflexivity].
    now rewrite orb_true_r.
Qed.

Lemma empty_search_text_reads_no_filter_witness :
  where_filter (mk_widgets "" 5 true help_filter help_filter 10 0 true) = help_filter
  /\ sample_loads help_filter
     = Raise (JSONDecodeError
                "Expecting property name enclosed in double quotes: line 1 column 2 (char 1)")
  /\ warnings (trace (process_collection sample_loads four_items_collection
                        (mk_widgets "" 5 true help_filter help_filter 10 0 true))) = []
  /\ query_calls (trace (process_collection sample_loads four_items_collection
                           (mk_widgets "" 5 true help_filter help_filter 10 0 true))) = [].
Proof.
  split; [reflexivity|]. split; [reflexivity|].
  exact (empty_search_text_reads_no_filter sample_loads four_items_collection
           (mk_widgets "" 5 true help_filter help_filter 10 0 true) eq_refl).
Defined.

(** X5.  The run of a collection makes a paged fetch only when the Browse
    button is pressed on a collection whose table is shown, and then exactly
    one, with the limit and the offset as typed; searching makes none. *)
Theorem page_fetched_only_on_browse :
  forall (json_loads : string -> result json) (c : collection) (w : widgets),
    page_calls (trace (process_collection json_loads c w)) =
    match get c with
    | Ok data =>
        match GetResult.ids data with
        | Some _ =>
            if (max_length (lengths_of data) =? 0) || negb (browse_btn w) then []
            else [(browse_limit w, browse_offset w)]
        | None => []
        end
    | Raise _ => []
    end.
Proof.
  intros json_loads c w.
  rewrite process_collection_run. cbn [trace fst].
  destruct (get c) as [data|e]; [|reflexivity].
  destruct (GetResult.ids data) as [l|]; [|reflexivity].
  rewrite page_calls_app. cbn [heading page_calls app].
  unfold after_lengths. cbv zeta.
  destruct (max_length (lengths_of data) =? 0); [reflexivity|].
  cbn [page_calls orb]. unfold tabs. rewrite !page_calls_app. cbn [page_calls app].
  replace (page_calls (if (query_text w =? "")%string then []
                       else trace (query_tab json_loads c w
                                     (max_length (lengths_of data)))))
    with (@nil (Z * Z))
    by (destruct (query_text w =? "")%string;
        [reflexivity | now rewrite (proj2 (readings_query_tab json_loads c w _))]).
  rewrite app_nil_r. destruct (browse_btn w); [|reflexivity].
  apply readings_browse_tab.
Qed.

(** ** The tables shown *)

Lemma DataFrame_well_formed (d rest : dict) (df : dataframe) (k : string) (c : column) :
  DataFrame d = Ok df -> d = (k, c) :: rest -> 0 < col_len c -> well_formed df.
Proof.
  intros H -> Hc. destruct (DataFrame_ok _ _ H) as [Hcols [Hall Hrows]].
  unfold well_formed. rewrite Hcols. split; [exact Hall|].
  split; [reflexivity|]. now rewrite Hrows.
Qed.

Lemma len_cons_pos {A : Type} (a : A) (l : list A) : 0 < len (a :: l).
Proof. unfold len. cbn [length]. lia. Qed.

Lemma browse_table_well_formed (page : GetResult.t) (df : dataframe) :
  truthy (GetResult.ids page) = true ->
  DataFrame (browse_data_of page) = Ok df -> well_formed df.
Proof.
  intros T H. rewrite browse_data_of_columns in H.
  destruct (GetResult.ids page) as [[|a l]|]; try discriminate.
  eapply DataFrame_well_formed; [exact H | reflexivity | apply len_cons_pos].
Qed.

Lemma query_table_well_formed (w : widgets) (r : QueryResult.t) (df : dataframe) :
  truthy (first_batch (QueryResult.ids r)) = true ->
  DataFrame (result_data_of w r) = Ok df -> well_formed df.
Proof.
  intros T H. rewrite result_data_of_columns in H.
  destruct (first_batch (QueryResult.ids r)) as [[|a l]|]; try discriminate.
  eapply DataFrame_well_formed; [exact H | reflexivity | apply len_cons_pos].
Qed.

(** X4.  Every table the run of a collection shows, from the full fetch,
    from a browse or from a query, has at least one column and one row, and
    all its columns have as many entries as the table has rows, whatever the
    lengths of the lists the store returns. *)
Theorem shown_tables_are_well_formed :
  forall (json_loads : string -> result json) (c : collection) (w : widgets),
    Forall well_formed (dataframes (trace (process_collection json_loads c w))).
Proof.
  intros json_loads c w. rewrite process_collection_run. cbn [trace fst].
  destruct (get c) as [data|e]; [|constructor].
  destruct (GetResult.ids data) as [l|]; [|constructor].
  rewrite dataframes_app. cbn [heading dataframes app].
  unfold after_lengths. cbv zeta.
  destruct (Z.eqb_spec (max_length (lengths_of data)) 0) as [E|E]; [constructor|].
  pose proof (max_length_nonneg data) as H0.
  assert (Hm : 0 < max_length (lengths_of data)) by lia.
  cbn [dataframes]. constructor.
  - unfold well_formed. cbn [columns nrows].
    split; [now apply df_data_col_len|]. split; [now apply df_data_truthy | exact Hm].
  - unfold tabs. rewrite !dataframes_app. cbn [dataframes app].
    apply Forall_app. split.
    + destruct (browse_btn w); [|constructor].
      rewrite browse_tab_eq. cbn [trace fst dataframes].
      destruct (get_page c _ _) as [page|e]; [|constructor].
      unfold browse_shown. cbn [dataframes].
      destruct (truthy (GetResult.ids page)) eqn:T; [|constructor].
      destruct (DataFrame (browse_data_of page)) as [df|e] eqn:D; [|constructor].
      cbn [dataframes showing_items]. constructor; [|constructor].
      now apply (browse_table_well_formed page).
    + destruct (query_text w =? "")%string; [constructor|].
      rewrite dataframes_query_tab.
      destruct (filters_crash json_loads w); [constructor|].
      destruct (query c _) as [r|e]; [|constructor].
      unfold query_shown. cbn [dataframes].
      destruct (truthy (first_batch (QueryResult.ids r))) eqn:T; [|constructor].
      destruct (DataFrame (result_data_of w r)) as [df|e] eqn:D; [|constructor].
      cbn [dataframes]. unfold stats_of.
      assert (W : well_formed df) by now apply (query_table_well_formed w r).
      destruct (include_distances w && dict_mem _ _);
        [destruct (dict_get _ _) as [[| | | |ds]|]|];
        cbn [dataframes]; (constructor; [exact W | constructor]).
Qed.

(** ** What the query tab reports *)

(** [pd.DataFrame] raises as soon as one column differs in length from the
    first one. *)
Lemma DataFrame_ragged (k : string) (c : column) (rest : dict) (kc : string * column) :
  In kc rest -> col_len (snd kc) <> col_len c ->
  DataFrame ((k, c) :: rest) = Raise (ValueError "All arrays must be of the same length").
Proof.
  intros Hin Hne. cbn [DataFrame].
  destruct (forallb _ rest) eqn:F; [|reflexivity].
  rewrite forallb_forall in F. apply F in Hin. apply Z.eqb_eq in Hin. contradiction.
Qed.

Lemma statistics_parse_warnings (json_loads : string -> result json)
    (text warning : string) :
  best_match_lines (parse_warnings json_loads text warning) = []
  /\ average_lines (parse_warnings json_loads text warning) = [].
Proof.
  unfold parse_warnings. destruct (text =? "")%string; [split; reflexivity|].
  destruct (json_loads text) as [v|[]]; split; reflexivity.
Qed.

(** X6.  A failure of the query stays in the tab.  When a filter crashes
    the decoder (its decoding raises something else than
    [json.JSONDecodeError]), the tab writes the message of that exception
    after "Query failed: " and the hint, and calls nothing.  Otherwise,
    when [collection.query] raises, the tab writes the warnings of the
    filters, then the message of the exception after "Query failed: " and
    the hint; and when the response has a first batch of documents,
    metadatas or distances that differs in length from the first batch of
    ids, building the table raises and the tab reports that in the same
    way.  None of these raises out of the tab. *)
Theorem query_failure_is_reported_in_the_tab :
  forall (json_loads : string -> result json) (c : collection) (w : widgets) (m : Z),
    (forall e,
        filters_crash json_loads w = Some e ->
        query_tab json_loads c w m =
        ((parse_warnings json_loads (where_filter w)
            "Invalid JSON format in metadata filter. Ignoring filter."
          ++ [st_error ("Query failed: " ++ str_exn e);
              st_info "Make sure the collection has embeddings and the query is valid"])%list,
         Ok tt))
    /\ (forall e,
           filters_crash json_loads w = None ->
           query c (query_params_of json_loads w m) = Raise e ->
           query_tab json_loads c w m =
           ((parse_warnings json_loads (where_filter w)
               "Invalid JSON format in metadata filter. Ignoring filter."
             ++ parse_warnings json_loads (where_document_filter w)
                  "Invalid JSON format in document filter. Ignoring filter."
             ++ [call_query (query_params_of json_loads w m);
                 st_error ("Query failed: " ++ str_exn e);
                 st_info "Make sure the collection has embeddings and the query is valid"])%list,
            Ok tt))
    /\ (forall r kc,
           filters_crash json_loads w = None ->
           query c (query_params_of json_loads w m) = Ok r ->
           truthy (first_batch (QueryResult.ids r)) = true ->
           In kc (result_data_of w r) ->
           col_len (snd kc) <> len_or_0 (first_batch (QueryResult.ids r)) ->
           query_tab json_loads c w m =
           ((parse_warnings json_loads (where_filter w)
               "Invalid JSON format in metadata filter. Ignoring filter."
             ++ parse_warnings json_loads (where_document_filter w)
                  "Invalid JSON format in document filter. Ignoring filter."
             ++ [call_query (query_params_of json_loads w m);
                 st_markdown "##### Query Results:";
                 st_error "Query failed: All arrays must be of the same length";
                 st_info "Make sure the collection has embeddings and the query is valid"])%list,
            Ok tt)).
Proof.
  intros json_loads c w m. split; [|split].
  - intros e F. now rewrite (query_tab_crashed json_loads c w m e F).
  - intros e F Hq. rewrite (query_tab_decoded json_loads c w m F).
    unfold answered. now rewrite Hq.
  - intros r kc F Hq T Hin Hne. rewrite (query_tab_decoded json_loads c w m F).
    unfold answered. rewrite Hq. unfold query_shown.
    rewrite T. rewrite result_data_of_columns in Hin |- *.
    destruct (first_batch (QueryResult.ids r)) as [[|a l]|]; try discriminate.
    cbn [column_if_truthy app] in Hin |- *. destruct Hin as [<-|Hin].
    + exfalso. apply Hne. reflexivity.
    + rewrite (DataFrame_ragged "ids" (IdCol (a :: l)) _ kc Hin); [reflexivity|].
      rewrite len_or_0_eq in Hne. exact Hne.
Qed.

Lemma query_failure_is_reported_in_the_tab_witness :
  query_tab sample_loads four_items_collection (search_with "nonsense" deep_filter) 4 =
  ([st_warning "Invalid JSON format in metadata filter. Ignoring filter.";
    st_error "Query failed: maximum recursion depth exceeded while decoding a JSON array from a unicode string";
    st_info "Make sure the collection has embeddings and the query is valid"],
   Ok tt)
  /\ query_tab sample_loads failing_collection (search_with "" "") 4 =
     ([call_query {| QueryParams.query_texts := ["tides"];
                     QueryParams.n_results := 4;
                     QueryParams.where_ := None;
                     QueryParams.where_document := None |};
       st_error "Query failed: no embedding function";
       st_info "Make sure the collection has embeddings and the query is valid"],
      Ok tt)
  /\ query_tab sample_loads (answering ragged_results) (search_with "" "") 4 =
     ([call_query {| QueryParams.query_texts := ["tides"];
                     QueryParams.n_results := 4;
                     QueryParams.where_ := None;
                     QueryParams.where_document := None |};
       st_markdown "##### Query Results:";
       st_error "Query failed: All arrays must be of the same length";
       st_info "Make sure the collection has embeddings and the query is valid"],
      Ok tt).
Proof.
  split; [|split].
  - apply (proj1 (query_failure_is_reported_in_the_tab sample_loads
                    four_items_collection (search_with "nonsense" deep_filter) 4)
             (RecursionError
                "maximum recursion depth exceeded while decoding a JSON array from a unicode string")).
    vm_compute. reflexivity.
  - exact (proj1 (proj2 (query_failure_is_reported_in_the_tab sample_loads
                           failing_collection (search_with "" "") 4))
             (ClientError "no embedding function") eq_refl eq_refl).
  - apply (proj2 (proj2 (query_failure_is_reported_in_the_tab sample_loads
                           (answering ragged_results) (search_with "" "") 4))
             ragged_results ("documents", DocumentCol [Some "one"]));
      [reflexivity | reflexivity | reflexivity | right; left; reflexivity | discriminate].
Defined.

(** X7.  Unless a filter crashes the decoder, a response with no id in its
    first batch (no list of batches, no batch, or an empty first batch) ends
    the tab with the line that no results were found: no table and no
    statistics are written, whatever documents, metadatas or distances the
    response carries. *)
Theorem empty_result_is_reported :
  forall (json_loads : string -> result json) (c : collection) (w : widgets) (m : Z)
         (r : QueryResult.t),
    filters_crash json_loads w = None ->
    query c (query_params_of json_loads w m) = Ok r ->
    truthy (first_batch (QueryResult.ids r)) = false ->
    query_tab json_loads c w m =
    ((parse_warnings json_loads (where_filter w)
        "Invalid JSON format in metadata filter. Ignoring filter."
      ++ parse_warnings json_loads (where_document_filter w)
           "Invalid JSON format in document filter. Ignoring filter."
      ++ [call_query (query_params_of json_loads w m);
          st_markdown "##### Query Results:";
          st_info "No results found for your query"])%list,
     Ok tt)
    /\ dataframes (trace (query_tab json_loads c w m)) = []
    /\ best_match_lines (trace (query_tab json_loads c w m)) = []
    /\ average_lines (trace (query_tab json_loads c w m)) = [].
Proof.
  intros json_loads c w m r F Hq T.
  assert (E : query_tab json_loads c w m =
    ((parse_warnings json_loads (where_filter w)
        "Invalid JSON format in metadata filter. Ignoring filter."
      ++ parse_warnings json_loads (where_document_filter w)
           "Invalid JSON format in document filter. Ignoring filter."
      ++ [call_query (query_params_of json_loads w m);
          st_markdown "##### Query Results:";
          st_info "No results found for your query"])%list,
     Ok tt)).
  { rewrite (query_tab_decoded json_loads c w m F). unfold answered.
    rewrite Hq. unfold query_shown. now rewrite T. }
  split; [exact E|]. rewrite E. cbn [trace fst].
  rewrite !dataframes_app, !best_match_lines_app, !average_lines_app,
    !dataframes_parse_warnings, !(proj1 (statistics_parse_warnings _ _ _)),
    !(proj2 (statistics_parse_warnings _ _ _)). repeat split.
Qed.

Lemma empty_result_is_reported_witness :
  query_tab sample_loads (answering results_without_ids) (search_with "" "") 4 =
  ([call_query {| QueryParams.query_texts := ["tides"];
                  QueryParams.n_results := 4;
                  QueryParams.where_ := None;
                  QueryParams.where_document := None |};
    st_markdown "##### Query Results:";
    st_info "No results found for your query"],
   Ok tt).
Proof.
  exact (proj1 (empty_result_is_reported sample_loads (answering results_without_ids)
                  (search_with "" "") 4 results_without_ids eq_refl eq_refl eq_refl)).
Defined.

(** The statistics lines of the query tab, read from its trace. *)
Lemma query_tab_statistics (json_loads : string -> result json)
    (c : collection) (w : widgets) (m : Z) :
  let stats :=
    match filters_crash json_loads w with
    | Some _ => []
    | None =>
        match query c (query_params_of json_loads w m) with
        | Ok r =>
            if truthy (first_batch (QueryResult.ids r)) then
              match DataFrame (result_data_of w r) with
              | Ok _ =>
                  if include_distances w then
                    match first_batch (QueryResult.distances r) with
                    | Some (d :: ds) => [d :: ds]
                    | Some [] | None => []
                    end
                  else []
              | Raise _ => []
              end
            else []
        | Raise _ => []
        end
    end in
  best_match_lines (trace (query_tab json_loads c w m)) = stats
  /\ average_lines (trace (query_tab json_loads c w m)) = stats.
Proof.
  cbv zeta. destruct (filters_crash json_loads w) as [e|] eqn:F.
  - rewrite (query_tab_crashed json_loads c w m e F). cbn [trace fst].
    rewrite !best_match_lines_app, !average_lines_app,
      !(proj1 (statistics_parse_warnings _ _ _)),
      !(proj2 (statistics_parse_warnings _ _ _)).
    split; reflexivity.
  - rewrite (query_tab_decoded json_loads c w m F). cbn [trace fst].
    rewrite !best_match_lines_app, !average_lines_app,
      !(proj1 (statistics_parse_warnings _ _ _)),
      !(proj2 (statistics_parse_warnings _ _ _)).
    unfold answered. cbn [app best_match_lines average_lines].
    destruct (query c _) as [r|e]; [|split; reflexivity].
    unfold query_shown. cbn [best_match_lines average_lines].
    destruct (truthy _); [|split; reflexivity].
    destruct (DataFrame _); [|split; reflexivity].
    cbn [best_match_lines average_lines]. rewrite stats_of_result_data.
    destruct (include_distances w); [|split; reflexivity].
    destruct (first_batch (QueryResult.distances r)) as [[|d ds]|]; split; reflexivity.
Qed.

(** X8.  The query tab writes the best-match line and the average line
    together, at most once, and only under a table: when it writes them for
    a list of distances, distances were asked for, the list is the first
    batch of the response's distances and is not empty, and the one table
    shown has that list as its distances column, one distance per row. *)
Theorem statistics_follow_their_table :
  forall (json_loads : string -> result json) (c : collection) (w : widgets) (m : Z),
    best_match_lines (trace (query_tab json_loads c w m))
    = average_lines (trace (query_tab json_loads c w m))
    /\ (length (best_match_lines (trace (query_tab json_loads c w m))) <= 1)%nat
    /\ (forall ds,
           In ds (best_match_lines (trace (query_tab json_loads c w m))) ->
           include_distances w = true
           /\ 0 < len ds
           /\ exists r df,
                query c (query_params_of json_loads w m) = Ok r
                /\ first_batch (QueryResult.distances r) = Some ds
                /\ dataframes (trace (query_tab json_loads c w m)) = [df]
                /\ dict_get (columns df) "distances" = Some (FloatCol ds)
                /\ nrows df = len ds).
Proof.
  intros json_loads c w m.
  destruct (query_tab_statistics json_loads c w m) as [HB HA]. cbv zeta in HB, HA.
  split; [now rewrite HB, HA|]. rewrite HB. clear HB HA.
  destruct (filters_crash json_loads w) as [e0|] eqn:Fc;
    [split; [cbn; lia | intros ds []]|].
  destruct (query c (query_params_of json_loads w m)) as [r|e] eqn:Hq;
    [|split; [cbn; lia | intros ds []]].
  destruct (truthy (first_batch (QueryResult.ids r))) eqn:T;
    [|split; [cbn; lia | intros ds []]].
  destruct (DataFrame (result_data_of w r)) as [df|e] eqn:D;
    [|split; [cbn; lia | intros ds []]].
  destruct (include_distances w) eqn:I; [|split; [cbn; lia | intros ds []]].
  destruct (first_batch (QueryResult.distances r)) as [[|d ds0]|] eqn:F;
    [split; [cbn; lia | intros ds []] | | split; [cbn; lia | intros ds []]].
  split; [cbn; lia|]. intros ds1 [E|[]]. subst ds1.
  split; [reflexivity|]. split; [apply len_cons_pos|].
  exists r, df. split; [first [reflexivity | exact Hq]|].
  split; [first [reflexivity | exact F]|].
  destruct (DataFrame_ok _ _ D) as [Hcols [Hall _]].
  assert (G : dict_get (result_data_of w r) "distances" = Some (FloatCol (d :: ds0))).
  { now rewrite dict_get_distances, I, F. }
  split; [|split].
  - rewrite dataframes_query_tab, Fc, Hq.
    unfold query_shown. rewrite T, D. cbn [dataframes].
    rewrite stats_of_result_data, I, F. reflexivity.
  - now rewrite Hcols.
  - assert (Hin : In ("distances", FloatCol (d :: ds0)) (result_data_of w r)).
    { clear -G. induction (result_data_of w r) as [|[k v] rest IH]; [discriminate|].
      cbn [dict_get] in G. destruct (String.eqb_spec k "distances") as [->|_].
      - injection G as ->. left. reflexivity.
      - right. now apply IH. }
    rewrite Forall_forall in Hall. symmetry. exact (Hall _ Hin).
Qed.

(** X9.  With the distances box unchecked the query tab shows no distance:
    no table it shows has a distances column and no statistics line is
    written, whatever distances the response carries. *)
Theorem unchecked_distances_are_hidden :
  forall (json_loads : string -> result json) (c : collection) (w : widgets) (m : Z),
    include_distances w = false ->
    (forall df, In df (dataframes (trace (query_tab json_loads c w m))) ->
                dict_mem (columns df) "distances" = false)
    /\ best_match_lines (trace (query_tab json_loads c w m)) = []
    /\ average_lines (trace (query_tab json_loads c w m)) = [].
Proof.
  intros json_loads c w m I. split.
  - intros df Hin.
    destruct (query c (query_params_of json_loads w m)) as [r|e] eqn:Hq.
    + rewrite (query_tab_dataframes json_loads c w m r df Hq Hin).
      unfold dict_mem. now rewrite dict_get_distances, I.
    + rewrite dataframes_query_tab, Hq in Hin.
      destruct (filters_crash json_loads w); destruct Hin.
  - destruct (query_tab_statistics json_loads c w m) as [-> ->]. rewrite I.
    destruct (filters_crash json_loads w); [split; reflexivity|].
    destruct (query c _) as [r|e]; [|split; reflexivity].
    destruct (truthy _); [|split; reflexivity].
    destruct (DataFrame _); split; reflexivity.
Qed.

Lemma statistics_follow_their_table_witness :
  best_match_lines (trace (query_tab sample_loads (answering two_batches)
                             (search_with "" "") 4))
  = [[FFinite 1 (-2); FFinite 3 (-2)]]
  /\ include_distances (search_with "" "") = true
  /\ 0 < len [FFinite 1 (-2); FFinite 3 (-2)].
Proof.
  split; [reflexivity|].
  destruct (proj2 (proj2 (statistics_follow_their_table sample_loads
                            (answering two_batches) (search_with "" "") 4))
              [FFinite 1 (-2); FFinite 3 (-2)] (or_introl eq_refl))
    as [H1 [H2 _]].
  split; [exact H1 | exact H2].
Defined.

Lemma unchecked_distances_are_hidden_witness :
  include_distances (mk_widgets "tides" 5 false "" "" 10 0 false) = false
  /\ first_batch (QueryResult.distances two_batches)
     = Some [FFinite 1 (-2); FFinite 3 (-2)]
  /\ best_match_lines
       (trace (query_tab sample_loads (answering two_batches)
                 (mk_widgets "tides" 5 false "" "" 10 0 false) 4)) = []
  /\ average_lines
       (trace (query_tab sample_loads (answering two_batches)
                 (mk_widgets "tides" 5 false "" "" 10 0 false) 4)) = [].
Proof.
  split; [reflexivity|]. split; [reflexivity|].
  exact (proj2 (unchecked_distances_are_hidden sample_loads (answering two_batches)
                  (mk_widgets "tides" 5 false "" "" 10 0 false) 4 eq_refl)).
Defined.

(** ** Connecting and running the script *)

Lemma ui_pair (m : ui unit) : snd m = Ok tt -> m = (trace m, Ok tt).
Proof. destruct m as [tr r]. cbn. now intros ->. Qed.

(** X10.  [view_collections_http] raises nothing.  It writes the line of the
    server first; when the client cannot be made, and also when the client
    is made and listing its collections raises, it then writes that the
    connection failed, with the host and the port, the message of the
    exception and the hint about the container, and nothing else; when the
    collections are listed it goes on with the listing. *)
Theorem http_failure_is_reported :
  forall (json_loads : string -> result json) (chromadb : Chromadb.api)
         (session : string -> widgets) (host : string) (port : Z),
    snd (view_collections_http json_loads chromadb session host port) = Ok tt
    /\ (forall e,
           Chromadb.HttpClient chromadb host port = Raise e
           \/ (exists cl, Chromadb.HttpClient chromadb host port = Ok cl
                          /\ list_collections cl = Raise e) ->
           trace (view_collections_http json_loads chromadb session host port) =
           [st_markdown ("### ChromaDB Server: " ++ host ++ ":" ++ str_int port);
            st_error ("Failed to connect to ChromaDB server at " ++ host ++ ":"
                      ++ str_int port);
            st_error ("Error: " ++ str_exn e);
            st_info "Make sure your ChromaDB Docker container is running and accessible"])
    /\ (forall cl cs,
           Chromadb.HttpClient chromadb host port = Ok cl ->
           list_collections cl = Ok cs ->
           trace (view_collections_http json_loads chromadb session host port) =
           st_markdown ("### ChromaDB Server: " ++ host ++ ":" ++ str_int port)
           :: trace (display_collections json_loads cl session)).
Proof.
  intros json_loads chromadb session host port.
  unfold view_collections_http, lift, emit. cbn [bind].
  destruct (Chromadb.HttpClient chromadb host port) as [cl|e0].
  - rewrite display_collections_run.
    destruct (list_collections cl) as [cs|e0] eqn:L.
    + split; [reflexivity|]. split.
      * intros e [H|[cl' [H L']]]; [discriminate|].
        injection H as <-. rewrite L in L'. discriminate.
      * intros cl' cs' H L'. injection H as <-. rewrite L in L'.
        injection L' as <-. rewrite display_collections_run, L. reflexivity.
    + split; [reflexivity|]. split.
      * intros e [H|[cl' [H L']]]; [discriminate|].
        injection H as <-. rewrite L in L'. injection L' as <-. reflexivity.
      * intros cl' cs' H L'. injection H as <-. rewrite L in L'. discriminate.
  - split; [reflexivity|]. split.
    + intros e [H|[cl' [H _]]]; [|discriminate]. injection H as <-. reflexivity.
    + intros cl' cs' H. discriminate.
Qed.

(** X11.  [view_collections_persistent] raises nothing.  It writes the line
    of the path first; when the store cannot be opened, and also when it is
    opened and listing its collections raises, it then writes that opening
    failed, with the path, and the message of the exception, and nothing
    else; when the collections are listed it goes on with the listing. *)
Theorem persistent_failure_is_reported :
  forall (json_loads : string -> result json) (chromadb : Chromadb.api)
         (session : string -> widgets) (p : string),
    snd (view_collections_persistent json_loads chromadb session p) = Ok tt
    /\ (forall e,
           Chromadb.PersistentClient chromadb p = Raise e
           \/ (exists cl, Chromadb.PersistentClient chromadb p = Ok cl
                          /\ list_collections cl = Raise e) ->
           trace (view_collections_persistent json_loads chromadb session p) =
           [st_markdown ("### DB Path: " ++ p);
            st_error ("Failed to open ChromaDB at path: " ++ p);
            st_error ("Error: " ++ str_exn e)])
    /\ (forall cl cs,
           Chromadb.PersistentClient chromadb p = Ok cl ->
           list_collections cl = Ok cs ->
           trace (view_collections_persistent json_loads chromadb session p) =
           st_markdown ("### DB Path: " ++ p)
           :: trace (display_collections json_loads cl session)).
Proof.
  intros json_loads chromadb session p.
  unfold view_collections_persistent, lift, emit. cbn [bind].
  destruct (Chromadb.PersistentClient chromadb p) as [cl|e0].
  - rewrite display_collections_run.
    destruct (list_collections cl) as [cs|e0] eqn:L.
    + split; [reflexivity|]. split.
      * intros e [H|[cl' [H L']]]; [discriminate|].
        injection H as <-. rewrite L in L'. discriminate.
      * intros cl' cs' H L'. injection H as <-. rewrite L in L'.
        injection L' as <-. rewrite display_collections_run, L. reflexivity.
    + split; [reflexivity|]. split.
      * intros e [H|[cl' [H L']]]; [discriminate|].
        injection H as <-. rewrite L in L'. injection L' as <-. reflexivity.
      * intros cl' cs' H L'. injection H as <-. rewrite L in L'. discriminate.
  - split; [reflexivity|]. split.
    + intros e [H|[cl' [H _]]]; [|discriminate]. injection H as <-. reflexivity.
    + intros cl' cs' H. discriminate.
Qed.

Lemma http_failure_is_reported_witness :
  view_collections_http sample_loads (local_only []) untouched "localhost" 8000 =
  ([st_markdown "### ChromaDB Server: localhost:8000";
    st_error "Failed to connect to ChromaDB server at localhost:8000";
    st_error "Error: Connection refused";
    st_info "Make sure your ChromaDB Docker container is running and accessible"],
   Ok tt).
Proof.
  destruct (http_failure_is_reported sample_loads (local_only []) untouched
              "localhost" 8000) as [H1 [H2 _]].
  rewrite (ui_pair _ H1).
  now rewrite (H2 (ClientError "Connection refused") (or_introl eq_refl)).
Defined.

Lemma persistent_failure_is_reported_witness :
  view_collections_persistent sample_loads locked_store untouched "./chroma" =
  ([st_markdown "### DB Path: ./chroma";
    st_error "Failed to open ChromaDB at path: ./chroma";
    st_error "Error: database is locked"],
   Ok tt).
Proof.
  destruct (persistent_failure_is_reported sample_loads locked_store untouched
              "./chroma") as [H1 [H2 _]].
  rewrite (ui_pair _ H1).
  now rewrite (H2 (ClientError "database is locked")
                 (or_intror (ex_intro _ unlistable (conj eq_refl eq_refl)))).
Defined.

Section ScriptFacts.

Variable json_loads : string -> result json.
Variable chromadb : Chromadb.api.
Variable session : string -> widgets.



End ScriptFacts.



(** ** Absent fields, and the order of the columns *)

Lemma lengths_of_absent_as_empty (data : GetResult.t) :
  lengths_of (absent_as_empty data) = lengths_of data.
Proof.
  destruct data as [i e md d]. unfold lengths_of, absent_as_empty.
  cbn [GetResult.ids GetResult.embeddings GetResult.metadatas GetResult.documents].
  destruct e, md, d; reflexivity.
Qed.

Lemma df_data_of_absent_as_empty (data : GetResult.t) (m : Z) :
  df_data_of (absent_as_empty data) m = df_data_of data m.
Proof.
  destruct data as [i e md d]. unfold df_data_of, absent_as_empty.
  cbn [GetResult.ids GetResult.embeddings GetResult.metadatas GetResult.documents].
  destruct e, md, d; reflexivity.
Qed.

Lemma tabs_with_data (json_loads : string -> result json) (c : collection)
    (data : GetResult.t) (w : widgets) (m : Z) :
  tabs json_loads (with_data c data) w m = tabs json_loads c w m.
Proof.
  unfold tabs. now rewrite !browse_tab_eq, !query_tab_eq.
Qed.

(** X13.  An absent list of documents, metadatas or embeddings counts as an
    empty one: were the fetch to return empty lists in place of the absent
    ones, the run of the collection would write the same lines, show the
    same tables and make the same calls. *)
Theorem absent_fields_count_as_empty :
  forall (json_loads : string -> result json) (c : collection) (w : widgets)
         (data : GetResult.t),
    get c = Ok data ->
    process_collection json_loads (with_data c (absent_as_empty data)) w
    = process_collection json_loads c w.
Proof.
  intros json_loads c w data Hg. rewrite !process_collection_run, Hg.
  cbn [get with_data name]. unfold absent_as_empty at 1. cbn [GetResult.ids].
  destruct (GetResult.ids data) as [l|]; [|reflexivity].
  unfold heading, after_lengths. cbn [name with_data]. cbv zeta.
  rewrite lengths_of_absent_as_empty, df_data_of_absent_as_empty.
  fold (with_data c (absent_as_empty data)). now rewrite tabs_with_data.
Qed.

Lemma absent_fields_count_as_empty_witness :
  absent_as_empty three_items
  = GetResult.mk (Some ["id1"; "id2"; "id3"]) (Some []) (Some [None; None; None])
      (Some [Some "one"; Some "two"; Some "three"])
  /\ process_collection sample_loads
       (with_data three_items_collection (absent_as_empty three_items))
       (search_with "" "")
     = process_collection sample_loads three_items_collection (search_with "" "").
Proof.
  split; [reflexivity|].
  exact (absent_fields_count_as_empty sample_loads three_items_collection
           (search_with "" "") three_items eq_refl).
Defined.

(** X14.  The columns of the collection's table always come in the order
    ids, documents, metadatas, embeddings_count, each at most once: the
    names of the table's columns are those of that list that the table
    holds, in the list's order. *)
Theorem table_columns_keep_their_order :
  forall (data : GetResult.t) (df : dataframe),
    reconcile data = Ok (Table df) ->
    dict_keys (columns df)
    = filter (fun k => dict_mem (columns df) k) column_order
    /\ NoDup (dict_keys (columns df)).
Proof.
  intros data df H.
  destruct (reconcile_total data) as [[HE _]|[df' [_ Hm]]];
    [rewrite HE in H; discriminate|].
  rewrite (reconcile_positive data Hm) in H. injection H as <-.
  cbn [columns]. rewrite df_data_of_entries.
  destruct data as [i e md d]. unfold entry, kept, column_of.
  cbn [GetResult.ids GetResult.embeddings GetResult.metadatas GetResult.documents].
  destruct i as [i|], e as [e|], md as [md|], d as [d|];
    cbn [fits truthy andb option_map];
    repeat match goal with
           | |- context [fits (Some ?l) ?m] => destruct (fits (Some l) m)
           end;
    (split; [reflexivity | repeat constructor; cbn; intuition discriminate]).
Qed.

Lemma table_columns_keep_their_order_witness :
  dict_keys [("ids", IdCol ["id1"; "id2"; "id3"]);
             ("documents", DocumentCol [Some "one"; Some "two"; Some "three"]);
             ("metadatas", MetadataCol [None; None; None])]
  = filter (fun k => dict_mem
                       [("ids", IdCol ["id1"; "id2"; "id3"]);
                        ("documents", DocumentCol [Some "one"; Some "two"; Some "three"]);
                        ("metadatas", MetadataCol [None; None; None])] k)
      column_order
  /\ NoDup (dict_keys [("ids", IdCol ["id1"; "id2"; "id3"]);
                       ("documents", DocumentCol [Some "one"; Some "two"; Some "three"]);
                       ("metadatas", MetadataCol [None; None; None])]).
Proof.
  exact (table_columns_keep_their_order three_items
           (mk_dataframe
              [("ids", IdCol ["id1"; "id2"; "id3"]);
               ("documents", DocumentCol [Some "one"; Some "two"; Some "three"]);
               ("metadatas", MetadataCol [None; None; None])] 3) eq_refl).
Defined.

(** ** The size of a query *)

(** X15.  With the number of results typed within the widget's bounds, 1 to
    50, every query the run of a collection makes asks for at least one
    result, for at most 50, and for no more than the maximum of the fetched
    lengths; it carries the search text, which is not empty, as its only
    query text. *)
Theorem submitted_count_within_bounds :
  forall (json_loads : string -> result json) (c : collection) (w : widgets)
         (p : QueryParams.t),
    1 <= n_results w <= 50 ->
    In p (query_calls (trace (process_collection json_loads c w))) ->
    1 <= QueryParams.n_results p <= 50
    /\ (forall data, get c = Ok data ->
                     QueryParams.n_results p <= max_length (lengths_of data))
    /\ QueryParams.query_texts p = [query_text w]
    /\ query_text w <> "".
Proof.
  intros json_loads c w p Hn. rewrite process_collection_query_calls.
  destruct (get c) as [data|e]; [|intros []].
  destruct (GetResult.ids data); [|intros []].
  destruct (Z.eqb_spec (max_length (lengths_of data)) 0) as [E|E]; [intros []|].
  destruct (String.eqb_spec (query_text w) "") as [Q|Q]; [intros []|].
  cbn [orb]. destruct (filters_crash json_loads w); [intros []|].
  intros [<-|[]]. pose proof (max_length_nonneg data) as H0.
  unfold query_params_of. cbn [QueryParams.n_results QueryParams.query_texts].
  split; [lia|]. split; [|split; [reflexivity | exact Q]].
  intros data' H. injection H as <-. lia.
Qed.

Lemma submitted_count_within_bounds_witness :
  1 <= QueryParams.n_results
         {| QueryParams.query_texts := ["tides"];
            QueryParams.n_results := 3;
            QueryParams.where_ := None;
            QueryParams.where_document := None |} <= 50
  /\ (forall data, get three_items_collection = Ok data ->
                   QueryParams.n_results
                     {| QueryParams.query_texts := ["tides"];
                        QueryParams.n_results := 3;
                        QueryParams.where_ := None;
                        QueryParams.where_document := None |}
                   <= max_length (lengths_of data))
  /\ QueryParams.query_texts
       {| QueryParams.query_texts := ["tides"];
          QueryParams.n_results := 3;
          QueryParams.where_ := None;
          QueryParams.where_document := None |}
     = [query_text (search_with "" "")]
  /\ query_text (search_with "" "") <> "".
Proof.
  apply (submitted_count_within_bounds sample_loads three_items_collection
           (search_with "" "")).
  - split; discriminate.
  - left. reflexivity.
Defined.
